(** * systemtemps: the telemetry pipeline of [system_monitor.py]

    A shallow embedding of the [SystemMonitor] class: the GPU resolver
    [get_gpu_info], the sampling tick [update_system_info], the popup
    visibility operations and the Tk event loop that drives them, followed
    by the properties of the specification that were checked against it.

    Conventions of the embedding.
    - A Python [str] is a [string] whose characters are code points below
      256; the degree sign is code point 176.
    - External calls ([subprocess.run], [psutil], [wmi], [keyboard],
      [datetime.now]) are answered by an environment record; every call an
      operation makes is written to a trace, so that "strategy X was (not)
      invoked" is a statement about the trace.
    - Python exceptions are values of [exc]; a computation yields
      [Returns v] or [Raises e].  The state of the object survives a raise,
      as it does in Python.
    - Python's [float], [float(str)] and the [.Nf] format specification are
      taken as an interface ([PyFloat]); nothing below depends on how they
      round.
    - Tk widget operations ([Toplevel], [Label.config], [destroy], [after],
      [quit]) are total: the window system itself is not a failure source
      of the model. *)

From Stdlib Require Import String Ascii List ZArith Bool Arith Lia DecimalString.
From ExtLib Require Import Structures.Monad.
Import ListNotations.
Import MonadNotation.
Open Scope string_scope.
Open Scope nat_scope.
Open Scope monad_scope.

(* ================================================================== *)
(** * Python string methods *)
(* ================================================================== *)

Module Str.

(** [str.isspace] on one code point below 256. *)
Definition isspace (c : ascii) : bool :=
  let n := nat_of_ascii c in
  ((9 <=? n) && (n <=? 13)) || ((28 <=? n) && (n <=? 32))
  || (n =? 133) || (n =? 160).

Fixpoint lstrip (s : string) : string :=
  match s with
  | EmptyString => EmptyString
  | String c s' => if isspace c then lstrip s' else s
  end.

Fixpoint rstrip (s : string) : string :=
  match s with
  | EmptyString => EmptyString
  | String c s' =>
      match rstrip s' with
      | EmptyString => if isspace c then EmptyString else String c EmptyString
      | r => String c r
      end
  end.

(** [s.strip()] *)
Definition strip (s : string) : string := rstrip (lstrip s).

(** [str.lower] on one code point below 256: A-Z and the Latin-1 capitals. *)
Definition lower_char (c : ascii) : ascii :=
  let n := nat_of_ascii c in
  if ((65 <=? n) && (n <=? 90))
     || ((192 <=? n) && (n <=? 222) && negb (n =? 215))
  then ascii_of_nat (n + 32) else c.

(** [s.lower()] *)
Fixpoint lower (s : string) : string :=
  match s with
  | EmptyString => EmptyString
  | String c s' => String (lower_char c) (lower s')
  end.

(** [needle in hay] *)
Fixpoint contains (needle hay : string) : bool :=
  prefix needle hay
  || match hay with
     | EmptyString => false
     | String _ hay' => contains needle hay'
     end.

(** [s.split(sep)] for a non-empty [sep]: cut at each leftmost
    occurrence, scanning left to right.  [skip] counts the characters of
    a separator that was just matched and is still being consumed;
    [cur] is the field read so far. *)
Fixpoint split_go (sep : string) (skip : nat) (cur s : string) : list string :=
  match s with
  | EmptyString => [cur]
  | String c s' =>
      match skip with
      | S k => split_go sep k cur s'
      | O =>
          if prefix sep s
          then cur :: split_go sep (String.length sep - 1) EmptyString s'
          else split_go sep 0 (cur ++ String c EmptyString) s'
      end
  end.

Definition split (sep s : string) : list string := split_go sep 0 "" s.

(** Truth value of a [str] and of a [list]. *)
Definition truthy (s : string) : bool :=
  match s with EmptyString => false | _ => true end.

Definition truthy_list {A} (l : list A) : bool :=
  match l with [] => false | _ => true end.

(** The one-character string of a line feed, and the suffix of a
    temperature. *)
Definition nl : string := String (ascii_of_nat 10) "".
Definition degC : string := String (ascii_of_nat 176) "C".

End Str.

(* ================================================================== *)
(** * Exceptions, outcomes and the trace of external calls *)
(* ================================================================== *)

(** The exception classes the monitor can meet.  [KeyboardInterrupt] and
    [SystemExit] derive from [BaseException] only; all others are
    subclasses of [Exception]. *)
Inductive exc : Type :=
| FileNotFoundError | PermissionError | TimeoutExpired | OSError
| ImportError | x_wmi | ValueError | TypeError | AttributeError
| UnicodeDecodeError
| KeyboardInterrupt | SystemExit.

(** [isinstance(e, Exception)] *)
Definition is_Exception (e : exc) : bool :=
  match e with
  | KeyboardInterrupt | SystemExit => false
  | _ => true
  end.

(** A bare [except:] clause. *)
Definition any_exception (e : exc) : bool := true.

Inductive outcome (A : Type) : Type :=
| Returns (a : A)
| Raises (e : exc).
Arguments Returns {A} a.
Arguments Raises {A} e.

(** Diagnostic lines written with [print]. *)
Inductive console_line : Type :=
| Hotkey_error (e : exc)
| GPU_info_error (e : exc)
| Monitoring_error (e : exc)
| Error_updating_popup (e : exc)
| Callback_exception (e : exc)   (* Tk's report of an exception in a callback *)
| Startup_banner.

(** One entry per call that leaves the process, in program order. *)
Inductive call : Type :=
| Call_cpu_percent            (* psutil.cpu_percent(interval=None) *)
| Call_sensors_temperatures   (* psutil.sensors_temperatures() *)
| Call_virtual_memory         (* psutil.virtual_memory() *)
| Call_nvidia_smi             (* subprocess.run(['nvidia-smi', ...], timeout=5) *)
| Call_import_wmi             (* import wmi *)
| Call_wmi_WMI                (* wmi.WMI(namespace="root/OpenHardwareMonitor") *)
| Call_wmi_Sensor             (* c.Sensor() *)
| Call_powershell_counter     (* subprocess.run(['powershell', ...], timeout=5) *)
| Call_add_hotkey             (* keyboard.add_hotkey('ctrl+shift+m', ...) *)
| Call_unhook_all             (* keyboard.unhook_all() *)
| Call_root_after (ms : nat)  (* root.after(ms, ...) *)
| Call_print (l : console_line).

(** Trace and outcome of a computation that does not touch the object. *)
Definition IO (A : Type) : Type := (list call * outcome A)%type.

Definition io_ret {A} (a : A) : IO A := ([], Returns a).

Definition io_bind {A B} (m : IO A) (f : A -> IO B) : IO B :=
  match m with
  | (t, Returns a) => let (t', r) := f a in ((t ++ t')%list, r)
  | (t, Raises e) => (t, Raises e)
  end.

#[export] Instance Monad_IO : Monad IO :=
  {| ret := @io_ret; bind := @io_bind |}.

(** An external call: one trace entry and the answer of the environment. *)
Definition invoke {A} (c : call) (answer : outcome A) : IO A := ([c], answer).

Definition raise {A} (e : exc) : IO A := ([], Raises e).

Definition print (l : console_line) : IO unit := ([Call_print l], Returns tt).

(** [try: body  except <catches>: handler] *)
Definition try_except {A} (body : IO A) (catches : exc -> bool)
           (handler : exc -> IO A) : IO A :=
  match body with
  | (t, Raises e) =>
      if catches e then let (t', r) := handler e in ((t ++ t')%list, r)
      else (t, Raises e)
  | done => done
  end.

(* ================================================================== *)
(** * Python floats, as an interface *)
(* ================================================================== *)

Class PyFloat : Type := {
  pyfloat : Type;
  (** the number [0] the fields are initialised with *)
  float_zero : pyfloat;
  (** [float(s)]; [None] stands for [ValueError] *)
  float_of_str : string -> option pyfloat;
  (** [format(x, '.Nf')] *)
  format_f : nat -> pyfloat -> string
}.

(* ================================================================== *)
(** * The environment and the metric sources *)
(* ================================================================== *)

(** [subprocess.CompletedProcess] with [capture_output=True, text=True]. *)
Record CompletedProcess : Type := {
  returncode : Z;
  stdout : string
}.

Section Sources.
Context `{PyFloat}.

(** An instance of the WMI class [Sensor] of OpenHardwareMonitor; its
    [Value] is a real number in the schema of the class. *)
Record Sensor : Type := {
  Name : string;
  SensorType : string;
  Value : pyfloat
}.

(** [psutil] results: one temperature entry and the memory statistics. *)
Record shwtemp : Type := { label : string; current : pyfloat }.
Record svmem : Type := { percent : pyfloat }.

(** What the outside world answers during one operation. *)
Record Env : Type := {
  psutil_cpu_percent : outcome pyfloat;
  psutil_sensors_temperatures : outcome (list (string * list shwtemp));
  psutil_virtual_memory : outcome svmem;
  nvidia_smi : outcome CompletedProcess;
  wmi_import : outcome unit;
  wmi_connect : outcome unit;
  wmi_sensors : outcome (list Sensor);
  powershell_counter : outcome CompletedProcess;
  keyboard_add_hotkey : outcome unit;
  keyboard_unhook_all : outcome unit;
  (** [datetime.now().strftime("%H:%M:%S")] *)
  now_hms : string
}.

(** ** [get_cpu_temperature] (lines 46-57) *)

Definition cpu_channel (name : string) : bool :=
  Str.contains "cpu" (Str.lower name) || Str.contains "core" (Str.lower name).

(** The two nested [for] loops: the first entry of the first non-empty,
    CPU-named group returns. *)
Fixpoint scan_temperatures (temps : list (string * list shwtemp)) : string :=
  match temps with
  | [] => "N/A"
  | (name, entries) :: rest =>
      match entries with
      | entry :: _ =>
          if cpu_channel name
          then format_f 1 (current entry) ++ Str.degC
          else scan_temperatures rest
      | [] => scan_temperatures rest
      end
  end.

Definition get_cpu_temperature (env : Env) : IO string :=
  try_except
    (temps <- invoke Call_sensors_temperatures (psutil_sensors_temperatures env) ;;
     ret (scan_temperatures temps))
    any_exception (fun _ => ret "N/A").

(** ** [get_gpu_info] (lines 59-121)

    Each of the three inner [try] blocks yields [Some (temp, usage)] when
    it executes a [return] and [None] when control falls out of it. *)

(** Lines 66-82: the vendor tool. *)
Definition nvidia_smi_strategy (env : Env) : IO (option (string * string)) :=
  try_except
    (result <- invoke Call_nvidia_smi (nvidia_smi env) ;;
     if (returncode result =? 0)%Z then
       let lines := Str.split Str.nl (Str.strip (stdout result)) in
       if Str.truthy_list lines && Str.truthy (nth 0 lines "") then
         let values := Str.split ", " (nth 0 lines "") in
         if 2 <=? length values then
           let usage := Str.strip (nth 0 values "") ++ "%" in
           let temp := Str.strip (nth 1 values "") ++ Str.degC in
           ret (Some (temp, usage))
         else ret None
       else ret None
     else ret None)
    is_Exception (fun _ => ret None).

(** Lines 92-97: the body of the loop over the sensor channels. *)
Definition sensor_step (acc : string * string) (sensor : Sensor) : string * string :=
  let (gpu_temp, gpu_usage) := acc in
  if Str.contains "gpu" (Str.lower (Name sensor)) then
    if Str.contains "temperature" (Str.lower (SensorType sensor)) then
      (format_f 0 (Value sensor) ++ Str.degC, gpu_usage)
    else if Str.contains "load" (Str.lower (SensorType sensor)) then
      (gpu_temp, format_f 0 (Value sensor) ++ "%")
    else acc
  else acc.

Definition sensor_loop (sensors : list Sensor) : string * string :=
  fold_left sensor_step sensors ("N/A", "N/A").

(** Lines 85-101: the hardware-sensor service. *)
Definition wmi_strategy (env : Env) : IO (option (string * string)) :=
  try_except
    (invoke Call_import_wmi (wmi_import env) ;;
     invoke Call_wmi_WMI (wmi_connect env) ;;
     sensors <- invoke Call_wmi_Sensor (wmi_sensors env) ;;
     ret (Some (sensor_loop sensors)))
    any_exception (fun _ => ret None).

(** Lines 104-115: the performance counter. *)
Definition powershell_strategy (env : Env) : IO (option (string * string)) :=
  try_except
    (result <- invoke Call_powershell_counter (powershell_counter env) ;;
     if (returncode result =? 0)%Z && Str.truthy (Str.strip (stdout result)) then
       match float_of_str (Str.strip (stdout result)) with
       | Some usage_value => ret (Some ("N/A", format_f 1 usage_value ++ "%"))
       | None => raise ValueError
       end
     else ret None)
    any_exception (fun _ => ret None).

Definition get_gpu_info (env : Env) : IO (string * string) :=
  try_except
    (r1 <- nvidia_smi_strategy env ;;
     match r1 with
     | Some v => ret v
     | None =>
         r2 <- wmi_strategy env ;;
         match r2 with
         | Some v => ret v
         | None =>
             r3 <- powershell_strategy env ;;
             match r3 with
             | Some v => ret v
             | None => ret ("N/A", "N/A")
             end
         end
     end)
    is_Exception
    (fun e => print (GPU_info_error e) ;; ret ("N/A", "N/A")).

End Sources.

(* ================================================================== *)
(** * The object, the popup and the Tk root *)
(* ================================================================== *)

(** The popup window with the labels [create_popup] puts on it.  The
    labels are attributes of the monitor in the source; they are created
    with the window and only configured while it exists, so they are kept
    with it. *)
Record Popup : Type := {
  cpu_usage_label : string;
  cpu_temp_label : string;
  memory_label : string;
  gpu_usage_label : string;
  gpu_temp_label : string;
  timestamp_label : string
}.

(** The functions handed to [root.after]. *)
Inductive callback : Type :=
| cb_update_system_info
| cb_toggle_popup_main_thread.

(** The part of the Tk root the monitor uses: the pending [after] timers
    (due time in ms, kept in firing order), the clock, and whether
    [quit()] has been called. *)
Record TkRoot : Type := {
  after_queue : list (nat * callback);
  clock_ms : nat;
  quit_requested : bool
}.

Definition fresh_root : TkRoot :=
  {| after_queue := []; clock_ms := 0; quit_requested := false |}.

(** Timers fire in order of due time, and in order of registration among
    equal due times. *)
Fixpoint enqueue (t : nat * callback) (q : list (nat * callback))
  : list (nat * callback) :=
  match q with
  | [] => [t]
  | x :: q' => if fst t <? fst x then t :: q else x :: enqueue t q'
  end.

Definition tk_after (ms : nat) (cb : callback) (r : TkRoot) : TkRoot :=
  {| after_queue := enqueue (clock_ms r + ms, cb) (after_queue r);
     clock_ms := clock_ms r;
     quit_requested := quit_requested r |}.

Definition tk_quit (r : TkRoot) : TkRoot :=
  {| after_queue := after_queue r;
     clock_ms := clock_ms r;
     quit_requested := true |}.

Definition truthy_opt {A} (o : option A) : bool :=
  match o with Some _ => true | None => false end.

Section Monitor.
Context `{PyFloat}.

(** The attributes of a [SystemMonitor]; [hotkey_hooked] is the hook
    table of the [keyboard] module, which the monitor fills and empties. *)
Record SystemMonitor : Type := {
  root : TkRoot;
  popup_window : option Popup;
  is_popup_visible : bool;
  monitoring : bool;
  cpu_percent : pyfloat;
  cpu_temp : string;
  gpu_temp : string;
  gpu_usage : string;
  memory_percent : pyfloat;
  hotkey_hooked : bool
}.

Definition set_root (v : TkRoot) (s : SystemMonitor) : SystemMonitor :=
  {| root := v; popup_window := popup_window s;
     is_popup_visible := is_popup_visible s; monitoring := monitoring s;
     cpu_percent := cpu_percent s; cpu_temp := cpu_temp s;
     gpu_temp := gpu_temp s; gpu_usage := gpu_usage s;
     memory_percent := memory_percent s; hotkey_hooked := hotkey_hooked s |}.

Definition set_popup_window (v : option Popup) (s : SystemMonitor) : SystemMonitor :=
  {| root := root s; popup_window := v;
     is_popup_visible := is_popup_visible s; monitoring := monitoring s;
     cpu_percent := cpu_percent s; cpu_temp := cpu_temp s;
     gpu_temp := gpu_temp s; gpu_usage := gpu_usage s;
     memory_percent := memory_percent s; hotkey_hooked := hotkey_hooked s |}.

Definition set_is_popup_visible (v : bool) (s : SystemMonitor) : SystemMonitor :=
  {| root := root s; popup_window := popup_window s;
     is_popup_visible := v; monitoring := monitoring s;
     cpu_percent := cpu_percent s; cpu_temp := cpu_temp s;
     gpu_temp := gpu_temp s; gpu_usage := gpu_usage s;
     memory_percent := memory_percent s; hotkey_hooked := hotkey_hooked s |}.

Definition set_monitoring (v : bool) (s : SystemMonitor) : SystemMonitor :=
  {| root := root s; popup_window := popup_window s;
     is_popup_visible := is_popup_visible s; monitoring := v;
     cpu_percent := cpu_percent s; cpu_temp := cpu_temp s;
     gpu_temp := gpu_temp s; gpu_usage := gpu_usage s;
     memory_percent := memory_percent s; hotkey_hooked := hotkey_hooked s |}.

Definition set_cpu_percent (v : pyfloat) (s : SystemMonitor) : SystemMonitor :=
  {| root := root s; popup_window := popup_window s;
     is_popup_visible := is_popup_visible s; monitoring := monitoring s;
     cpu_percent := v; cpu_temp := cpu_temp s;
     gpu_temp := gpu_temp s; gpu_usage := gpu_usage s;
     memory_percent := memory_percent s; hotkey_hooked := hotkey_hooked s |}.

Definition set_cpu_temp (v : string) (s : SystemMonitor) : SystemMonitor :=
  {| root := root s; popup_window := popup_window s;
     is_popup_visible := is_popup_visible s; monitoring := monitoring s;
     cpu_percent := cpu_percent s; cpu_temp := v;
     gpu_temp := gpu_temp s; gpu_usage := gpu_usage s;
     memory_percent := memory_percent s; hotkey_hooked := hotkey_hooked s |}.

Definition set_gpu (v : string * string) (s : SystemMonitor) : SystemMonitor :=
  {| root := root s; popup_window := popup_window s;
     is_popup_visible := is_popup_visible s; monitoring := monitoring s;
     cpu_percent := cpu_percent s; cpu_temp := cpu_temp s;
     gpu_temp := fst v; gpu_usage := snd v;
     memory_percent := memory_percent s; hotkey_hooked := hotkey_hooked s |}.

Definition set_memory_percent (v : pyfloat) (s : SystemMonitor) : SystemMonitor :=
  {| root := root s; popup_window := popup_window s;
     is_popup_visible := is_popup_visible s; monitoring := monitoring s;
     cpu_percent := cpu_percent s; cpu_temp := cpu_temp s;
     gpu_temp := gpu_temp s; gpu_usage := gpu_usage s;
     memory_percent := v; hotkey_hooked := hotkey_hooked s |}.

Definition set_hotkey_hooked (v : bool) (s : SystemMonitor) : SystemMonitor :=
  {| root := root s; popup_window := popup_window s;
     is_popup_visible := is_popup_visible s; monitoring := monitoring s;
     cpu_percent := cpu_percent s; cpu_temp := cpu_temp s;
     gpu_temp := gpu_temp s; gpu_usage := gpu_usage s;
     memory_percent := memory_percent s; hotkey_hooked := v |}.

(** ** Methods: the object is threaded through, and kept on a raise *)

Definition Act (A : Type) : Type :=
  SystemMonitor -> (list call * SystemMonitor * outcome A)%type.

Definition act_ret {A} (a : A) : Act A := fun s => ([], s, Returns a).

Definition act_bind {A B} (m : Act A) (f : A -> Act B) : Act B :=
  fun s =>
    match m s with
    | (t, s1, Returns a) =>
        match f a s1 with (t', s2, r) => ((t ++ t')%list, s2, r) end
    | (t, s1, Raises e) => (t, s1, Raises e)
    end.

#[export] Instance Monad_Act : Monad Act :=
  {| ret := @act_ret; bind := @act_bind |}.

Definition lift {A} (io : IO A) : Act A := fun s => (fst io, s, snd io).

Definition get : Act SystemMonitor := fun s => ([], s, Returns s).

Definition modify (f : SystemMonitor -> SystemMonitor) : Act unit :=
  fun s => ([], f s, Returns tt).

Definition act_try_except {A} (body : Act A) (catches : exc -> bool)
           (handler : exc -> Act A) : Act A :=
  fun s =>
    match body s with
    | (t, s1, Raises e) =>
        if catches e
        then match handler e s1 with (t', s2, r) => ((t ++ t')%list, s2, r) end
        else (t, s1, Raises e)
    | done => done
    end.

(** [self.root.after(ms, cb)] *)
Definition root_after (ms : nat) (cb : callback) : Act unit :=
  fun s => ([Call_root_after ms], set_root (tk_after ms cb (root s)) s, Returns tt).

(** ** The popup (lines 148-300) *)

(** The window as [create_popup] builds it, before any update. *)
Definition blank_popup : Popup :=
  {| cpu_usage_label := "Usage: 0%";
     cpu_temp_label := "Temp: N/A";
     memory_label := "Usage: 0%";
     gpu_usage_label := "Usage: N/A";
     gpu_temp_label := "Temp: N/A";
     timestamp_label := "" |}.

(** The label texts [update_popup_content] configures. *)
Definition rendered (env : Env) (s : SystemMonitor) : Popup :=
  {| cpu_usage_label := "Usage: " ++ format_f 1 (cpu_percent s) ++ "%";
     cpu_temp_label := "Temp: " ++ cpu_temp s;
     memory_label := "Usage: " ++ format_f 1 (memory_percent s) ++ "%";
     gpu_usage_label := "Usage: " ++ gpu_usage s;
     gpu_temp_label := "Temp: " ++ gpu_temp s;
     timestamp_label := "Updated: " ++ now_hms env |}.

Definition update_popup_content (env : Env) : Act unit :=
  s <- get ;;
  if negb (truthy_opt (popup_window s)) || negb (is_popup_visible s)
  then ret tt
  else modify (set_popup_window (Some (rendered env s))).

Definition create_popup (env : Env) : Act unit :=
  s <- get ;;
  if truthy_opt (popup_window s) then ret tt
  else
    modify (set_popup_window (Some blank_popup)) ;;
    update_popup_content env.

Definition show_popup (env : Env) : Act unit :=
  s <- get ;;
  if negb (is_popup_visible s) then
    create_popup env ;;
    modify (set_is_popup_visible true)
  else ret tt.

Definition hide_popup : Act unit :=
  s <- get ;;
  if is_popup_visible s && truthy_opt (popup_window s) then
    modify (set_popup_window None) ;;
    modify (set_is_popup_visible false)
  else ret tt.

(** Runs on the hotkey thread: it only posts the toggle to the UI loop. *)
Definition toggle_popup : Act unit :=
  root_after 0 cb_toggle_popup_main_thread.

Definition _toggle_popup_main_thread (env : Env) : Act unit :=
  s <- get ;;
  if is_popup_visible s then hide_popup else show_popup env.

(** ** The sampling tick (lines 123-146) *)

Definition update_system_info (env : Env) : Act unit :=
  act_try_except
    (v <- lift (invoke Call_cpu_percent (psutil_cpu_percent env)) ;;
     modify (set_cpu_percent v) ;;
     t <- lift (get_cpu_temperature env) ;;
     modify (set_cpu_temp t) ;;
     memory <- lift (invoke Call_virtual_memory (psutil_virtual_memory env)) ;;
     modify (set_memory_percent (percent memory)) ;;
     g <- lift (get_gpu_info env) ;;
     modify (set_gpu g) ;;
     s <- get ;;
     if is_popup_visible s && truthy_opt (popup_window s)
     then update_popup_content env
     else ret tt)
    is_Exception
    (fun e => lift (print (Monitoring_error e))) ;;
  s <- get ;;
  if monitoring s then root_after 2000 cb_update_system_info else ret tt.

(** ** Start and shutdown (lines 11-44, 302-310) *)

(** The thread function catches [Exception]; anything else ends the
    thread and goes no further. *)
Definition setup_hotkey_monitoring (env : Env) : Act unit :=
  act_try_except
    (lift (invoke Call_add_hotkey (keyboard_add_hotkey env)) ;;
     modify (set_hotkey_hooked true))
    any_exception
    (fun e => if is_Exception e then lift (print (Hotkey_error e)) else ret tt).

Definition new_monitor (r : TkRoot) : SystemMonitor :=
  {| root := r; popup_window := None; is_popup_visible := false;
     monitoring := true;
     cpu_percent := float_zero; cpu_temp := "N/A";
     gpu_temp := "N/A"; gpu_usage := "N/A";
     memory_percent := float_zero; hotkey_hooked := false |}.

Definition __init__ (env : Env) (r : TkRoot)
  : list call * SystemMonitor * outcome unit :=
  (setup_hotkey_monitoring env ;;
   update_system_info env ;;
   lift (print Startup_banner)) (new_monitor r).

Definition shutdown (env : Env) : Act unit :=
  modify (set_monitoring false) ;;
  hide_popup ;;
  act_try_except
    (lift (invoke Call_unhook_all (keyboard_unhook_all env)) ;;
     modify (set_hotkey_hooked false))
    any_exception (fun _ => ret tt) ;;
  modify (fun s => set_root (tk_quit (root s)) s).

End Monitor.

(* ================================================================== *)
(** * The Tk event loop and [main] (lines 312-333) *)
(* ================================================================== *)

(** The two threads of the process: the one that owns the Tk root and runs
    [root.mainloop()], and the daemon thread started by
    [setup_hotkey_monitoring]. *)
Inductive thread : Type := MainThread | HotkeyThread.

(** What can happen while [main] runs. *)
Inductive event : Type :=
| TimerDue              (* the next [after] timer has expired *)
| HotkeyPressed         (* ctrl+shift+m, seen by the hotkey thread *)
| PopupCloseRequested   (* the close button or WM_DELETE_WINDOW of the popup *)
| RootCloseRequested    (* WM_DELETE_WINDOW of the root: [on_closing] *)
| Interrupted.          (* KeyboardInterrupt in [mainloop], caught by [main] *)

Definition on (t : thread) (tr : list call) : list (thread * call) :=
  map (pair t) tr.

(** The thread that makes a call of the constructor: registering the
    hotkey and reporting its failure are the body of the daemon thread
    (lines 36-41), everything else is the caller's. *)
Definition init_thread (c : call) : thread :=
  match c with
  | Call_add_hotkey | Call_print (Hotkey_error _) => HotkeyThread
  | _ => MainThread
  end.

Definition on_init (tr : list call) : list (thread * call) :=
  map (fun c => (init_thread c, c)) tr.

Section EventLoop.
Context `{PyFloat}.

Definition run_callback (cb : callback) (env : Env) : Act unit :=
  match cb with
  | cb_update_system_info => update_system_info env
  | cb_toggle_popup_main_thread => _toggle_popup_main_thread env
  end.

(** One timer callback, as Tk's callback wrapper runs it: [SystemExit] ends
    the loop, any other exception is reported and the loop goes on. *)
Definition dispatch_timer (env : Env) (s : SystemMonitor)
  : list call * SystemMonitor :=
  match after_queue (root s) with
  | [] => ([], s)
  | (due, cb) :: q =>
      let s1 := set_root {| after_queue := q;
                            clock_ms := Nat.max (clock_ms (root s)) due;
                            quit_requested := quit_requested (root s) |} s in
      match run_callback cb env s1 with
      | (tr, s2, Returns _) => (tr, s2)
      | (tr, s2, Raises SystemExit) => (tr, set_root (tk_quit (root s2)) s2)
      | (tr, s2, Raises e) => ((tr ++ [Call_print (Callback_exception e)])%list, s2)
      end
  end.

(** One event.  The hotkey thread runs whether or not the loop does; every
    other event is served by the loop, which serves nothing once [quit()]
    has been called. *)
Definition handle (env : Env) (ev : event) (s : SystemMonitor)
  : list (thread * call) * SystemMonitor :=
  match ev with
  | HotkeyPressed =>
      if hotkey_hooked s
      then match toggle_popup s with (tr, s', _) => (on HotkeyThread tr, s') end
      else ([], s)
  | _ =>
      if quit_requested (root s) then ([], s)
      else
        match ev with
        | TimerDue =>
            let (tr, s') := dispatch_timer env s in (on MainThread tr, s')
        | PopupCloseRequested =>
            match hide_popup s with (tr, s', _) => (on MainThread tr, s') end
        | RootCloseRequested | Interrupted =>
            match shutdown env s with (tr, s', _) => (on MainThread tr, s') end
        | HotkeyPressed => ([], s)
        end
  end.

Fixpoint mainloop (evs : list (Env * event)) (s : SystemMonitor)
  : list (thread * call) * SystemMonitor :=
  match evs with
  | [] => ([], s)
  | (env, ev) :: rest =>
      let (tr, s1) := handle env ev s in
      let (tr', s2) := mainloop rest s1 in
      ((tr ++ tr')%list, s2)
  end.

(** [main]: build the root and the monitor on the main thread, then run
    the loop.  If the constructor raises, the loop is never entered. *)
Definition main (env0 : Env) (evs : list (Env * event))
  : list (thread * call) * SystemMonitor :=
  match __init__ env0 fresh_root with
  | (tr, s, Returns _) =>
      let (tr', s') := mainloop evs s in ((on_init tr ++ tr')%list, s')
  | (tr, s, Raises _) => (on_init tr, s)
  end.

(** ** Observations used in the statements *)

(** The calls that sample a metric source. *)
Definition sampling_call (c : call) : bool :=
  match c with
  | Call_cpu_percent | Call_sensors_temperatures | Call_virtual_memory
  | Call_nvidia_smi | Call_import_wmi | Call_wmi_WMI | Call_wmi_Sensor
  | Call_powershell_counter => true
  | _ => false
  end.

(** A sampling pass starts with the CPU read. *)
Definition starts_tick (c : call) : bool :=
  match c with Call_cpu_percent => true | _ => false end.

Definition ticks_run (tr : list (thread * call)) : nat :=
  List.length (filter (fun tc => starts_tick (snd tc)) tr).

(** What a sampling pass reads and writes, apart from the popup. *)
Definition sampler_state (s : SystemMonitor)
  : pyfloat * string * pyfloat * string * string * bool * TkRoot :=
  (cpu_percent s, cpu_temp s, memory_percent s, gpu_temp s, gpu_usage s,
   monitoring s, root s).

(** The object a method leaves behind, whether it returns or raises. *)
Definition state_after {A} (m : Act A) (s : SystemMonitor) : SystemMonitor :=
  snd (fst (m s)).

Definition trace_of {A} (m : Act A) (s : SystemMonitor) : list call :=
  fst (fst (m s)).

(** The sampling timers among the pending [after] callbacks. *)
Definition is_tick_timer (t : nat * callback) : bool :=
  match snd t with
  | cb_update_system_info => true
  | cb_toggle_popup_main_thread => false
  end.

Definition pending_ticks (s : SystemMonitor) : list (nat * callback) :=
  filter is_tick_timer (after_queue (root s)).

(** The object with another popup state. *)
Definition with_visibility (w : option Popup) (v : bool) (s : SystemMonitor)
  : SystemMonitor :=
  set_is_popup_visible v (set_popup_window w s).

(** All the hotkey thread does: register the hotkey, report a failure to
    do so, and post the toggle to the loop. *)
Definition hotkey_thread_call (tc : thread * call) : Prop :=
  match fst tc with
  | HotkeyThread =>
      snd tc = Call_add_hotkey
      \/ (exists e, snd tc = Call_print (Hotkey_error e))
      \/ snd tc = Call_root_after 0
  | MainThread => True
  end.

(** The visibility flag agrees with the presence of the window. *)
Definition visibility_inv (s : SystemMonitor) : Prop :=
  is_popup_visible s = truthy_opt (popup_window s).

(** A failure that is an [Exception], as opposed to an interrupt. *)
Definition Exception_only {A} (o : outcome A) : Prop :=
  match o with
  | Raises e => is_Exception e = true
  | Returns _ => True
  end.

(** An environment none of whose failures is an interrupt of a call the
    tick leaves unguarded. *)
Definition failures_are_Exceptions (env : Env) : Prop :=
  Exception_only (psutil_cpu_percent env)
  /\ Exception_only (psutil_virtual_memory env)
  /\ Exception_only (nvidia_smi env).

(** The sampler is alive: while [monitoring] holds, exactly one sampling
    timer is pending. *)
Definition sampler_alive (s : SystemMonitor) : Prop :=
  monitoring s = true -> List.length (pending_ticks s) = 1.

(** The condition under which lines 73-80 reach their [return]. *)
Definition nvidia_smi_row (r : CompletedProcess) : string :=
  nth 0 (Str.split Str.nl (Str.strip (stdout r))) "".

Definition nvidia_smi_usable (r : CompletedProcess) : bool :=
  (returncode r =? 0)%Z && Str.contains ", " (nvidia_smi_row r).

(** The condition under which lines 111-113 reach their [return]. *)
Definition counter_usable (r : CompletedProcess) : bool :=
  (returncode r =? 0)%Z
  && Str.truthy (Str.strip (stdout r))
  && truthy_opt (float_of_str (Str.strip (stdout r))).

(** The ways each strategy ends without data. *)
Definition primary_tool_fails (env : Env) : Prop :=
  match nvidia_smi env with
  | Raises e => is_Exception e = true
  | Returns r => nvidia_smi_usable r = false
  end.

Definition sensor_service_fails (env : Env) : Prop :=
  (exists e, wmi_import env = Raises e)
  \/ (exists e, wmi_connect env = Raises e)
  \/ (exists e, wmi_sensors env = Raises e).

Definition performance_counter_fails (env : Env) : Prop :=
  match powershell_counter env with
  | Raises _ => True
  | Returns r => counter_usable r = false
  end.

(** The channels the loop of lines 92-97 assigns from. *)
Definition gpu_temperature_channel (sensor : Sensor) : bool :=
  Str.contains "gpu" (Str.lower (Name sensor))
  && Str.contains "temperature" (Str.lower (SensorType sensor)).

Definition gpu_load_channel (sensor : Sensor) : bool :=
  Str.contains "gpu" (Str.lower (Name sensor))
  && negb (Str.contains "temperature" (Str.lower (SensorType sensor)))
  && Str.contains "load" (Str.lower (SensorType sensor)).

(** The text the loop derives from a channel, if there is one. *)
Definition channel_temperature (o : option Sensor) : string :=
  match o with
  | Some sensor => format_f 0 (Value sensor) ++ Str.degC
  | None => "N/A"
  end.

Definition channel_load (o : option Sensor) : string :=
  match o with
  | Some sensor => format_f 0 (Value sensor) ++ "%"
  | None => "N/A"
  end.

(** What [get_cpu_temperature] evaluates to. *)
Definition cpu_temperature_reading (env : Env) : string :=
  match psutil_sensors_temperatures env with
  | Returns temps => scan_temperatures temps
  | Raises _ => "N/A"
  end.

(** Lines 137-139 and 144-146, as functions of the object. *)
Definition refresh_popup (env : Env) (s : SystemMonitor) : SystemMonitor :=
  if is_popup_visible s && truthy_opt (popup_window s)
  then set_popup_window (Some (rendered env s)) s
  else s.

Definition schedule_next (s : SystemMonitor) : SystemMonitor :=
  if monitoring s
  then set_root (tk_after 2000 cb_update_system_info (root s)) s
  else s.

Definition schedule_trace (s : SystemMonitor) : list call :=
  if monitoring s then [Call_root_after 2000] else [].

(** The object after a pass in which the four reads gave [c], [t], [m]
    and [g]. *)
Definition sampled (env : Env) (c : pyfloat) (t : string) (m : svmem)
           (g : string * string) (s : SystemMonitor) : SystemMonitor :=
  schedule_next
    (refresh_popup env
       (set_gpu g (set_memory_percent (percent m)
                     (set_cpu_temp t (set_cpu_percent c s))))).

End EventLoop.

(* ================================================================== *)
(** * The specification's wording, for comparison *)
(* ================================================================== *)

Module Spec.

(** "parseable as numbers": an optional sign, digits, and an optional
    fraction. *)
Definition is_digit (c : ascii) : bool :=
  (48 <=? nat_of_ascii c) && (nat_of_ascii c <=? 57).

Fixpoint all_digits (s : string) : bool :=
  match s with
  | EmptyString => true
  | String c s' => is_digit c && all_digits s'
  end.

Definition unsigned_number (s : string) : bool :=
  match Str.split "." s with
  | [i] => Str.truthy i && all_digits i
  | [i; f] => Str.truthy (i ++ f) && all_digits i && all_digits f
  | _ => false
  end.

Definition parseable_number (s : string) : bool :=
  match s with
  | String "+" s' | String "-" s' => unsigned_number s'
  | _ => unsigned_number s
  end.

(** "a data row with both fields parseable as numbers" *)
Definition numeric_row (row : string) : bool :=
  match Str.split "," row with
  | [u; t] => parseable_number (Str.strip u) && parseable_number (Str.strip t)
  | _ => false
  end.

(** "process exits with a success code and produces at least one data row
    with both fields parseable as numbers" *)
Definition primary_tool_success (r : CompletedProcess) : bool :=
  (returncode r =? 0)%Z && existsb numeric_row (Str.split Str.nl (stdout r)).

End Spec.

(* ================================================================== *)
(** * Further observations *)
(* ================================================================== *)

(** The calls that start a process. *)
Definition spawns_process (c : call) : bool :=
  match c with
  | Call_nvidia_smi | Call_powershell_counter => true
  | _ => false
  end.

(** The traces a run of [get_gpu_info] can leave. *)
Definition resolver_traces : list (list call) :=
  [ [Call_nvidia_smi];
    [Call_nvidia_smi; Call_import_wmi; Call_powershell_counter];
    [Call_nvidia_smi; Call_import_wmi; Call_wmi_WMI; Call_powershell_counter];
    [Call_nvidia_smi; Call_import_wmi; Call_wmi_WMI; Call_wmi_Sensor;
     Call_powershell_counter];
    [Call_nvidia_smi; Call_import_wmi; Call_wmi_WMI; Call_wmi_Sensor] ].

(** The timers a run registers: 2000 ms by the main thread, 0 ms by the
    hotkey thread. *)
Definition registered_timer (tc : thread * call) : Prop :=
  forall ms, snd tc = Call_root_after ms ->
             (fst tc = MainThread /\ ms = 2000)
             \/ (fst tc = HotkeyThread /\ ms = 0).

Definition is_timer_event (p_ev : event) : bool :=
  match p_ev with TimerDue => true | _ => false end.

Section FurtherObservations.
Context `{PyFloat}.

(** A group of temperature entries from which lines 51-54 return. *)
Definition cpu_group (g : string * list shwtemp) : bool :=
  Str.truthy_list (snd g) && cpu_channel (fst g).

Definition group_temperature (o : option (string * list shwtemp)) : string :=
  match o with
  | Some (_, entry :: _) => format_f 1 (current entry) ++ Str.degC
  | _ => "N/A"
  end.

(** A channel whose name marks it as a GPU channel. *)
Definition gpu_named (sensor : Sensor) : bool :=
  Str.contains "gpu" (Str.lower (Name sensor)).

(** No toggle is waiting to be served. *)
Definition only_ticks_pending (s : SystemMonitor) : Prop :=
  Forall (fun t => is_tick_timer t = true) (after_queue (root s)).

(** The hotkey is not hooked, no toggle is pending and nothing is shown. *)
Definition never_toggled (s : SystemMonitor) : Prop :=
  hotkey_hooked s = false
  /\ only_ticks_pending s
  /\ is_popup_visible s = false
  /\ popup_window s = None.

(** The popup state and the metrics, without the root and the hooks. *)
Definition display_state (s : SystemMonitor)
  : option Popup * bool * bool * pyfloat * string * string * string * pyfloat :=
  (popup_window s, is_popup_visible s, monitoring s, cpu_percent s,
   cpu_temp s, gpu_temp s, gpu_usage s, memory_percent s).

(** A call that is no timer registration, or registers 2000 ms. *)
Definition sampling_timer_only (c : call) : Prop :=
  forall ms, c = Call_root_after ms -> ms = 2000.

(** The sampling passes started in a trace of calls. *)
Definition passes_started (tr : list call) : nat :=
  List.length (filter starts_tick tr).

(** The number of timer events among the events of a run. *)
Definition timer_events (evs : list (Env * event)) : nat :=
  List.length (filter (fun p => is_timer_event (snd p)) evs).

End FurtherObservations.

(* ================================================================== *)
(** * A concrete reading domain *)
(* ================================================================== *)

(** Integer-valued floats, enough to run the model on examples: [float]
    of a plain integer numeral, and the [.Nf] format of an integer value.
    Other numerals are not in the domain of this instance. *)
Module IntReadings.

Definition format_int (precision : nat) (z : Z) : string :=
  NilZero.string_of_int (Z.to_int z)
  ++ match precision with
     | O => ""
     | S _ => "." ++ string_of_list_ascii (repeat "0"%char precision)
     end.

Definition int_of_str (s : string) : option Z :=
  option_map Z.of_int (NilZero.int_of_string s).

#[export] Instance int_readings : PyFloat :=
  {| pyfloat := Z;
     float_zero := 0%Z;
     float_of_str := int_of_str;
     format_f := format_int |}.

(** The float with an integer value. *)
Definition reading (z : Z) : pyfloat := z.

(** An environment in which every source is missing: no sensor API, no
    vendor tool, no [wmi] module, no PowerShell. *)
Definition bare_env : Env :=
  {| psutil_cpu_percent := Returns 12%Z;
     psutil_sensors_temperatures := Raises AttributeError;
     psutil_virtual_memory := Returns {| percent := 40%Z |};
     nvidia_smi := Raises FileNotFoundError;
     wmi_import := Raises ImportError;
     wmi_connect := Raises x_wmi;
     wmi_sensors := Raises x_wmi;
     powershell_counter := Raises FileNotFoundError;
     keyboard_add_hotkey := Returns tt;
     keyboard_unhook_all := Returns tt;
     now_hms := "12:00:00" |}.

Definition with_nvidia_smi (o : outcome CompletedProcess) (env : Env) : Env :=
  {| psutil_cpu_percent := psutil_cpu_percent env;
     psutil_sensors_temperatures := psutil_sensors_temperatures env;
     psutil_virtual_memory := psutil_virtual_memory env;
     nvidia_smi := o;
     wmi_import := wmi_import env;
     wmi_connect := wmi_connect env;
     wmi_sensors := wmi_sensors env;
     powershell_counter := powershell_counter env;
     keyboard_add_hotkey := keyboard_add_hotkey env;
     keyboard_unhook_all := keyboard_unhook_all env;
     now_hms := now_hms env |}.

Definition with_sensor_service (sensors : list Sensor) (env : Env) : Env :=
  {| psutil_cpu_percent := psutil_cpu_percent env;
     psutil_sensors_temperatures := psutil_sensors_temperatures env;
     psutil_virtual_memory := psutil_virtual_memory env;
     nvidia_smi := nvidia_smi env;
     wmi_import := Returns tt;
     wmi_connect := Returns tt;
     wmi_sensors := Returns sensors;
     powershell_counter := powershell_counter env;
     keyboard_add_hotkey := keyboard_add_hotkey env;
     keyboard_unhook_all := keyboard_unhook_all env;
     now_hms := now_hms env |}.

Definition with_cpu_percent (o : outcome Z) (env : Env) : Env :=
  {| psutil_cpu_percent := o;
     psutil_sensors_temperatures := psutil_sensors_temperatures env;
     psutil_virtual_memory := psutil_virtual_memory env;
     nvidia_smi := nvidia_smi env;
     wmi_import := wmi_import env;
     wmi_connect := wmi_connect env;
     wmi_sensors := wmi_sensors env;
     powershell_counter := powershell_counter env;
     keyboard_add_hotkey := keyboard_add_hotkey env;
     keyboard_unhook_all := keyboard_unhook_all env;
     now_hms := now_hms env |}.

Definition with_counter (o : outcome CompletedProcess) (env : Env) : Env :=
  {| psutil_cpu_percent := psutil_cpu_percent env;
     psutil_sensors_temperatures := psutil_sensors_temperatures env;
     psutil_virtual_memory := psutil_virtual_memory env;
     nvidia_smi := nvidia_smi env;
     wmi_import := wmi_import env;
     wmi_connect := wmi_connect env;
     wmi_sensors := wmi_sensors env;
     powershell_counter := o;
     keyboard_add_hotkey := keyboard_add_hotkey env;
     keyboard_unhook_all := keyboard_unhook_all env;
     now_hms := now_hms env |}.

(** The vendor tool printing one row. *)
Definition tool_prints (row : string) : outcome CompletedProcess :=
  Returns {| returncode := 0; stdout := row ++ Str.nl |}.

(** ** The inputs of the examples *)

(** The vendor tool reports utilization 45 and temperature 62. *)
Definition env_tool_45_62 : Env :=
  with_nvidia_smi (tool_prints "45, 62") bare_env.

(** The vendor tool runs on a GPU that supports neither query. *)
Definition env_tool_unsupported : Env :=
  with_nvidia_smi (tool_prints "[N/A], [N/A]") bare_env.

(** No vendor tool; the sensor service answers with CPU channels only;
    the performance counter would report 37. *)
Definition cpu_channels : list Sensor :=
  [ {| Name := "CPU Core #1"; SensorType := "Temperature"; Value := 50%Z |};
    {| Name := "CPU Total"; SensorType := "Load"; Value := 7%Z |} ].

Definition env_service_without_gpu : Env :=
  with_counter (Returns {| returncode := 0; stdout := "37" ++ Str.nl |})
    (with_sensor_service cpu_channels bare_env).

(** No vendor tool; the sensor service lists two GPU temperatures and two
    GPU loads. *)
Definition gpu_channels : list Sensor :=
  [ {| Name := "GPU Core"; SensorType := "Temperature"; Value := 50%Z |};
    {| Name := "GPU Core"; SensorType := "Load"; Value := 10%Z |};
    {| Name := "GPU Memory"; SensorType := "Temperature"; Value := 70%Z |};
    {| Name := "GPU Memory"; SensorType := "Load"; Value := 30%Z |} ].

Definition env_service_with_gpu : Env :=
  with_sensor_service gpu_channels bare_env.

(** The CPU-utilization read fails; memory and the vendor tool are fine. *)
Definition env_cpu_read_fails : Env :=
  with_cpu_percent (Raises OSError) env_tool_45_62.

End IntReadings.

(** Further inputs over the same readings. *)
Module MoreReadings.
Import IntReadings.

Definition with_add_hotkey (o : outcome unit) (env : Env) : Env :=
  {| psutil_cpu_percent := psutil_cpu_percent env;
     psutil_sensors_temperatures := psutil_sensors_temperatures env;
     psutil_virtual_memory := psutil_virtual_memory env;
     nvidia_smi := nvidia_smi env;
     wmi_import := wmi_import env;
     wmi_connect := wmi_connect env;
     wmi_sensors := wmi_sensors env;
     powershell_counter := powershell_counter env;
     keyboard_add_hotkey := o;
     keyboard_unhook_all := keyboard_unhook_all env;
     now_hms := now_hms env |}.

(** Neither the vendor tool nor the [wmi] module; the counter reports 37. *)
Definition env_counter_only : Env :=
  with_counter (Returns {| returncode := 0; stdout := "37" ++ Str.nl |}) bare_env.

(** Ctrl+C arrives while the vendor tool runs. *)
Definition env_tool_interrupted : Env :=
  with_nvidia_smi (Raises KeyboardInterrupt) bare_env.

(** The vendor tool reports two GPUs. *)
Definition two_gpu_output : CompletedProcess :=
  {| returncode := 0;
     stdout := "45, 62" ++ Str.nl ++ ("30, 50" ++ Str.nl) |}.

Definition env_two_gpus : Env := with_nvidia_smi (Returns two_gpu_output) bare_env.

(** The hotkey cannot be registered. *)
Definition env_no_hotkey : Env :=
  with_add_hotkey (Raises PermissionError) env_tool_45_62.

(** A monitor whose popup is shown. *)
Definition shown_monitor : SystemMonitor :=
  state_after (show_popup bare_env) (new_monitor fresh_root).

End MoreReadings.

(** Unfold the sequencing of a computation, and nothing else. *)
Ltac io_run :=
  cbv beta iota zeta delta
    [bind ret Monad_IO io_bind io_ret invoke raise print try_except
     any_exception fst snd].

Ltac act_run :=
  cbv beta iota zeta delta
    [bind ret Monad_Act act_bind act_ret lift get modify act_try_except
     root_after any_exception fst snd].

(** Run a tick on an object given field by field, in every case of the
    environment. *)
Ltac tick_cases env :=
  unfold state_after, trace_of, update_system_info, update_popup_content,
    get_cpu_temperature;
  destruct (psutil_cpu_percent env) as [?c|?e];
  destruct (psutil_sensors_temperatures env) as [?t|?e];
  destruct (psutil_virtual_memory env) as [?m|?e];
  destruct (get_gpu_info env) as [?tg [?g|?e]];
  act_run; io_run; cbn;
  repeat match goal with
         | |- context [is_Exception ?e] => destruct (is_Exception e); cbn
         end.

(* ================================================================== *)
(** * Facts about the string methods *)
(* ================================================================== *)

Lemma split_go_truthy (sep : string) (s : string) :
  forall skip cur, Str.truthy_list (Str.split_go sep skip cur s) = true.
Proof.
  induction s as [|c s IH]; intros skip cur; cbn [Str.split_go].
  - reflexivity.
  - destruct skip as [|k].
    + destruct (prefix sep (String c s)); [reflexivity | apply IH].
    + apply IH.
Qed.

Lemma split_truthy (sep s : string) : Str.truthy_list (Str.split sep s) = true.
Proof. apply split_go_truthy. Qed.

Lemma split_go_length (sep : string) (s : string) :
  forall skip cur, 1 <= List.length (Str.split_go sep skip cur s).
Proof.
  intros skip cur. generalize (split_go_truthy sep s skip cur).
  destruct (Str.split_go sep skip cur s); simpl; [discriminate | lia].
Qed.

(** A string splits into two fields or more exactly when it contains the
    separator. *)
Lemma split_go_two_fields (sep : string) (s : string) :
  sep <> "" ->
  forall cur, (2 <=? List.length (Str.split_go sep 0 cur s)) = Str.contains sep s.
Proof.
  intros Hsep. induction s as [|c s IH]; intros cur.
  - simpl. destruct sep; [contradiction | reflexivity].
  - cbn [Str.split_go Str.contains].
    destruct (prefix sep (String c s)) eqn:Hp.
    + cbn [List.length orb].
      pose proof (split_go_length sep s (String.length sep - 1) "") as Hl.
      apply Nat.leb_le. lia.
    + rewrite IH. reflexivity.
Qed.

Lemma split_two_fields (sep s : string) :
  sep <> "" -> (2 <=? List.length (Str.split sep s)) = Str.contains sep s.
Proof. intros Hsep. apply split_go_two_fields, Hsep. Qed.

(** The first field of a split starts with what has been read so far. *)
Lemma split_go_first_field (sep : string) (s : string) :
  forall skip cur, exists rest,
    nth 0 (Str.split_go sep skip cur s) "" = cur ++ rest.
Proof.
  induction s as [|c s IH]; intros skip cur; cbn [Str.split_go].
  - exists "". cbn [nth]. clear. induction cur; simpl; congruence.
  - destruct skip as [|k].
    + destruct (prefix sep (String c s)).
      * exists "". cbn [nth]. clear. induction cur; simpl; congruence.
      * destruct (IH 0 (cur ++ String c "")) as [rest Hr].
        exists (String c rest). rewrite Hr. clear.
        induction cur; simpl; congruence.
    + apply IH.
Qed.

Lemma lstrip_head (s : string) :
  match Str.lstrip s with
  | EmptyString => True
  | String c _ => Str.isspace c = false
  end.
Proof.
  induction s as [|c s IH]; simpl; [exact I|].
  destruct (Str.isspace c) eqn:Hc; [exact IH | exact Hc].
Qed.

Lemma rstrip_head (c : ascii) (s : string) :
  Str.isspace c = false -> exists r, Str.rstrip (String c s) = String c r.
Proof.
  intros Hc. simpl. destruct (Str.rstrip s).
  - rewrite Hc. eauto.
  - eauto.
Qed.

(** A stripped string is empty or starts with a character that is not
    white space. *)
Lemma strip_head (s : string) :
  Str.strip s = "" \/
  exists c r, Str.strip s = String c r /\ Str.isspace c = false.
Proof.
  unfold Str.strip. pose proof (lstrip_head s) as Hl.
  destruct (Str.lstrip s) as [|c l]; [left; reflexivity|].
  right. destruct (rstrip_head c l Hl) as [r Hr]. eauto.
Qed.

(** The first line of a stripped output is empty only if the output is. *)
Lemma first_line_truthy (s : string) :
  Str.truthy (nth 0 (Str.split Str.nl (Str.strip s)) "") = Str.truthy (Str.strip s).
Proof.
  destruct (strip_head s) as [-> | (c & r & -> & Hc)]; [reflexivity|].
  unfold Str.split. cbn [Str.split_go].
  assert (Hp : prefix Str.nl (String c r) = false).
  { unfold Str.nl. cbn [prefix].
    destruct (ascii_dec (ascii_of_nat 10) c) as [<-|]; [discriminate Hc | reflexivity]. }
  rewrite Hp.
  destruct (split_go_first_field Str.nl r 0 ("" ++ String c "")) as [rest ->].
  reflexivity.
Qed.

(** The methods on the inputs of the Python documentation and on the rows
    met below. *)
Example split_keeps_empty_fields :
  Str.split ", " "a, b, , c, " = ["a"; "b"; ""; "c"; ""].
Proof. reflexivity. Qed.

Example split_is_leftmost : Str.split ", " ", ," = [""; ","].
Proof. reflexivity. Qed.

Example split_empty : Str.split Str.nl "" = [""].
Proof. reflexivity. Qed.

Example split_without_separator : Str.split ", " "45,62" = ["45,62"].
Proof. reflexivity. Qed.

Example split_lines :
  Str.split Str.nl ("45, 62" ++ Str.nl ++ "30, 50") = ["45, 62"; "30, 50"].
Proof. reflexivity. Qed.

Example strip_both_ends :
  Str.strip ("  45, 62 " ++ Str.nl) = "45, 62".
Proof. reflexivity. Qed.

Example strip_inner_space_kept : Str.strip " a b " = "a b".
Proof. reflexivity. Qed.

Example lower_ascii : Str.lower "GPU Core #1" = "gpu core #1".
Proof. reflexivity. Qed.

Example contains_inner : Str.contains "gpu" (Str.lower "NVIDIA GPU Temp") = true.
Proof. reflexivity. Qed.

Example contains_absent : Str.contains "gpu" (Str.lower "CPU Package") = false.
Proof. reflexivity. Qed.

(* ================================================================== *)
(** * The GPU resolver *)
(* ================================================================== *)

Section Resolver.
Context `{PyFloat}.

(** What lines 66-82 do with a process that ran to its end. *)
Lemma nvidia_smi_strategy_completed (env : Env) (r : CompletedProcess) :
  nvidia_smi env = Returns r ->
  nvidia_smi_strategy env =
    ([Call_nvidia_smi],
     Returns (if nvidia_smi_usable r
              then let values := Str.split ", " (nvidia_smi_row r) in
                   Some (Str.strip (nth 1 values "") ++ Str.degC,
                         Str.strip (nth 0 values "") ++ "%")
              else None)).
Proof.
  intros Hr. unfold nvidia_smi_strategy, nvidia_smi_usable, nvidia_smi_row.
  rewrite Hr. io_run.
  rewrite <- (split_two_fields ", ") by discriminate.
  rewrite split_truthy.
  destruct (returncode r =? 0)%Z; [|reflexivity].
  destruct (nth 0 (Str.split Str.nl (Str.strip (stdout r))) "") as [|c row];
    [reflexivity|].
  cbn [Str.truthy andb].
  destruct (2 <=? _); reflexivity.
Qed.

Lemma nvidia_smi_strategy_raised (env : Env) (e : exc) :
  nvidia_smi env = Raises e ->
  nvidia_smi_strategy env
  = ([Call_nvidia_smi], if is_Exception e then Returns None else Raises e).
Proof.
  intros He. unfold nvidia_smi_strategy. rewrite He. io_run.
  destruct (is_Exception e); reflexivity.
Qed.

Lemma primary_tool_fails_no_data (env : Env) :
  primary_tool_fails env ->
  nvidia_smi_strategy env = ([Call_nvidia_smi], Returns None).
Proof.
  unfold primary_tool_fails. intros Hf.
  destruct (nvidia_smi env) as [r|e] eqn:Hn.
  - rewrite (nvidia_smi_strategy_completed env r Hn), Hf. reflexivity.
  - rewrite (nvidia_smi_strategy_raised env e Hn), Hf. reflexivity.
Qed.

(** Lines 85-101 never raise, and return whenever the three calls do. *)
Lemma wmi_strategy_cases (env : Env) :
  wmi_strategy env =
    match wmi_import env, wmi_connect env, wmi_sensors env with
    | Raises _, _, _ => ([Call_import_wmi], Returns None)
    | Returns _, Raises _, _ => ([Call_import_wmi; Call_wmi_WMI], Returns None)
    | Returns _, Returns _, Raises _ =>
        ([Call_import_wmi; Call_wmi_WMI; Call_wmi_Sensor], Returns None)
    | Returns _, Returns _, Returns sensors =>
        ([Call_import_wmi; Call_wmi_WMI; Call_wmi_Sensor],
         Returns (Some (sensor_loop sensors)))
    end.
Proof.
  unfold wmi_strategy.
  destruct (wmi_import env), (wmi_connect env), (wmi_sensors env); reflexivity.
Qed.

Lemma sensor_service_fails_no_data (env : Env) :
  sensor_service_fails env ->
  exists t, wmi_strategy env = (t, Returns None)
            /\ incl t [Call_import_wmi; Call_wmi_WMI; Call_wmi_Sensor].
Proof.
  unfold sensor_service_fails. intros Hf. rewrite wmi_strategy_cases.
  destruct (wmi_import env) as [[]|e1] eqn:H1;
    [ destruct (wmi_connect env) as [[]|e2] eqn:H2;
      [ destruct (wmi_sensors env) as [l|e3] eqn:H3 | ] | ].
  - destruct Hf as [[e He] | [[e He] | [e He]]]; discriminate.
  - eexists; split; [reflexivity | apply incl_refl].
  - eexists; split; [reflexivity|]. intros x Hx. simpl in *. tauto.
  - eexists; split; [reflexivity|]. intros x Hx. simpl in *. tauto.
Qed.

(** Lines 104-115 never raise. *)
Lemma powershell_strategy_cases (env : Env) :
  powershell_strategy env =
    ([Call_powershell_counter],
     Returns match powershell_counter env with
             | Raises _ => None
             | Returns r =>
                 if counter_usable r
                 then option_map (fun v => ("N/A", format_f 1 v ++ "%"))
                                 (float_of_str (Str.strip (stdout r)))
                 else None
             end).
Proof.
  unfold powershell_strategy, counter_usable.
  destruct (powershell_counter env) as [r|e]; [|reflexivity].
  io_run.
  destruct ((returncode r =? 0)%Z && Str.truthy (Str.strip (stdout r)));
    [|reflexivity].
  destruct (float_of_str (Str.strip (stdout r))); reflexivity.
Qed.

Lemma performance_counter_fails_no_data (env : Env) :
  performance_counter_fails env ->
  powershell_strategy env = ([Call_powershell_counter], Returns None).
Proof.
  unfold performance_counter_fails. intros Hf. rewrite powershell_strategy_cases.
  destruct (powershell_counter env) as [r|e]; [|reflexivity].
  rewrite Hf. reflexivity.
Qed.

(** The chain of [get_gpu_info], one strategy at a time. *)
Lemma get_gpu_info_primary (env : Env) (t1 : list call) (v : string * string) :
  nvidia_smi_strategy env = (t1, Returns (Some v)) ->
  get_gpu_info env = (t1, Returns v).
Proof.
  intros H1. unfold get_gpu_info. rewrite H1. io_run.
  rewrite app_nil_r. reflexivity.
Qed.

Lemma get_gpu_info_secondary (env : Env) (t1 t2 : list call) (v : string * string) :
  nvidia_smi_strategy env = (t1, Returns None) ->
  wmi_strategy env = (t2, Returns (Some v)) ->
  get_gpu_info env = ((t1 ++ t2)%list, Returns v).
Proof.
  intros H1 H2. unfold get_gpu_info. rewrite H1, H2. io_run.
  rewrite app_nil_r. reflexivity.
Qed.

Lemma get_gpu_info_tertiary (env : Env) (t1 t2 : list call) :
  nvidia_smi_strategy env = (t1, Returns None) ->
  wmi_strategy env = (t2, Returns None) ->
  get_gpu_info env =
    ((t1 ++ t2 ++ [Call_powershell_counter])%list,
     Returns match snd (powershell_strategy env) with
             | Returns (Some v) => v
             | _ => ("N/A", "N/A")
             end).
Proof.
  intros H1 H2. unfold get_gpu_info.
  rewrite H1, H2, powershell_strategy_cases. io_run.
  destruct (powershell_counter env) as [r|e].
  - destruct (counter_usable r); [|rewrite app_nil_r; reflexivity].
    destruct (float_of_str (Str.strip (stdout r)));
      cbn [option_map]; rewrite app_nil_r; reflexivity.
  - rewrite app_nil_r. reflexivity.
Qed.

(** Only an interrupt of the vendor tool's run leaves [get_gpu_info] as an
    exception. *)
Lemma get_gpu_info_interrupted (env : Env) (e : exc) :
  nvidia_smi env = Raises e -> is_Exception e = false ->
  get_gpu_info env = ([Call_nvidia_smi], Raises e).
Proof.
  intros He Hi. unfold get_gpu_info.
  rewrite (nvidia_smi_strategy_raised env e He), Hi. io_run.
  rewrite Hi. reflexivity.
Qed.

Lemma get_gpu_info_returns (env : Env) :
  Exception_only (nvidia_smi env) ->
  exists tr v, get_gpu_info env = (tr, Returns v).
Proof.
  intros Hx.
  assert (H1 : exists o, nvidia_smi_strategy env = ([Call_nvidia_smi], Returns o)).
  { destruct (nvidia_smi env) as [r|e] eqn:Hn.
    - rewrite (nvidia_smi_strategy_completed env r Hn). eauto.
    - rewrite (nvidia_smi_strategy_raised env e Hn). simpl in Hx. rewrite Hx. eauto. }
  destruct H1 as [[v|] H1].
  - rewrite (get_gpu_info_primary env _ v H1). eauto.
  - assert (H2 : exists t2 o, wmi_strategy env = (t2, Returns o)).
    { rewrite wmi_strategy_cases.
      destruct (wmi_import env), (wmi_connect env), (wmi_sensors env); eauto. }
    destruct H2 as (t2 & [v|] & H2).
    + rewrite (get_gpu_info_secondary env _ t2 v H1 H2). eauto.
    + rewrite (get_gpu_info_tertiary env _ t2 H1 H2). eauto.
Qed.

(** The loop of lines 92-97, one channel after the others. *)
Lemma sensor_loop_snoc (sensors : list Sensor) (sensor : Sensor) :
  sensor_loop (sensors ++ [sensor]) = sensor_step (sensor_loop sensors) sensor.
Proof. unfold sensor_loop. rewrite fold_left_app. reflexivity. Qed.

Lemma sensor_loop_last_match (sensors : list Sensor) :
  sensor_loop sensors =
    (channel_temperature (find gpu_temperature_channel (rev sensors)),
     channel_load (find gpu_load_channel (rev sensors))).
Proof.
  induction sensors as [|sensor sensors IH] using rev_ind; [reflexivity|].
  rewrite sensor_loop_snoc, IH, rev_app_distr. cbn [rev app find].
  unfold sensor_step, gpu_temperature_channel, gpu_load_channel.
  destruct (Str.contains "gpu" (Str.lower (Name sensor)));
    destruct (Str.contains "temperature" (Str.lower (SensorType sensor)));
    destruct (Str.contains "load" (Str.lower (SensorType sensor)));
    reflexivity.
Qed.

End Resolver.

(* ================================================================== *)
(** * The sampling tick *)
(* ================================================================== *)

Section Tick.
Context `{PyFloat}.

Lemma get_cpu_temperature_returns (env : Env) :
  get_cpu_temperature env
  = ([Call_sensors_temperatures], Returns (cpu_temperature_reading env)).
Proof.
  unfold get_cpu_temperature, cpu_temperature_reading.
  destruct (psutil_sensors_temperatures env); reflexivity.
Qed.

Lemma update_popup_content_refreshes (env : Env) (s : SystemMonitor) :
  is_popup_visible s && truthy_opt (popup_window s) = true ->
  update_popup_content env s
  = ([], set_popup_window (Some (rendered env s)) s, Returns tt).
Proof.
  intros Hv. apply andb_prop in Hv as [Hv Hw].
  unfold update_popup_content. act_run. rewrite Hv, Hw. reflexivity.
Qed.

(** A pass in which the CPU and memory reads return and the resolver
    returns: every field is assigned, in order. *)
Lemma update_system_info_complete (env : Env) (s : SystemMonitor)
      (c : pyfloat) (m : svmem) (tg : list call) (g : string * string) :
  psutil_cpu_percent env = Returns c ->
  psutil_virtual_memory env = Returns m ->
  get_gpu_info env = (tg, Returns g) ->
  update_system_info env s
  = (([Call_cpu_percent; Call_sensors_temperatures; Call_virtual_memory]
        ++ tg ++ schedule_trace s)%list,
     sampled env c (cpu_temperature_reading env) m g s,
     Returns tt).
Proof.
  intros Hc Hm Hg. unfold update_system_info.
  rewrite Hc, Hm, Hg, get_cpu_temperature_returns.
  unfold sampled, schedule_next, schedule_trace, refresh_popup, update_popup_content.
  destruct s as [r w v mon cp ct gt gu mp hk].
  act_run. cbv beta iota zeta delta [invoke]. cbn.
  destruct v, w, mon; cbn; rewrite ?app_nil_r; reflexivity.
Qed.

Lemma update_system_info_cpu_failed (env : Env) (s : SystemMonitor) (e : exc) :
  psutil_cpu_percent env = Raises e -> is_Exception e = true ->
  update_system_info env s
  = (([Call_cpu_percent; Call_print (Monitoring_error e)] ++ schedule_trace s)%list,
     schedule_next s, Returns tt).
Proof.
  intros Hc He. unfold update_system_info. rewrite Hc.
  unfold schedule_next, schedule_trace.
  destruct s as [r w v mon cp ct gt gu mp hk].
  act_run. cbv beta iota zeta delta [invoke print]. rewrite He. cbn.
  destruct mon; reflexivity.
Qed.

Lemma update_system_info_memory_failed (env : Env) (s : SystemMonitor)
      (c : pyfloat) (e : exc) :
  psutil_cpu_percent env = Returns c ->
  psutil_virtual_memory env = Raises e -> is_Exception e = true ->
  update_system_info env s
  = (([Call_cpu_percent; Call_sensors_temperatures; Call_virtual_memory;
       Call_print (Monitoring_error e)] ++ schedule_trace s)%list,
     schedule_next (set_cpu_temp (cpu_temperature_reading env) (set_cpu_percent c s)),
     Returns tt).
Proof.
  intros Hc Hm He. unfold update_system_info.
  rewrite Hc, Hm, get_cpu_temperature_returns.
  unfold schedule_next, schedule_trace.
  destruct s as [r w v mon cp ct gt gu mp hk].
  act_run. cbv beta iota zeta delta [invoke print]. rewrite He. cbn.
  destruct mon; reflexivity.
Qed.

Lemma update_system_info_returns (env : Env) (s : SystemMonitor) :
  Exception_only (psutil_cpu_percent env) ->
  Exception_only (psutil_virtual_memory env) ->
  Exception_only (nvidia_smi env) ->
  exists tr s', update_system_info env s = (tr, s', Returns tt).
Proof.
  intros Hc Hm Hn.
  destruct (psutil_cpu_percent env) as [c|e] eqn:Ec.
  - destruct (psutil_virtual_memory env) as [m|e] eqn:Em.
    + destruct (get_gpu_info_returns env Hn) as (tg & g & Hg).
      rewrite (update_system_info_complete env s c m tg g Ec Em Hg). eauto.
    + rewrite (update_system_info_memory_failed env s c e Ec Em Hm). eauto.
  - rewrite (update_system_info_cpu_failed env s e Ec Hc). eauto.
Qed.

(** The fields after a complete pass. *)
Lemma sampled_fields (env : Env) (c : pyfloat) (t : string) (m : svmem)
      (g : string * string) (s : SystemMonitor) :
  cpu_percent (sampled env c t m g s) = c
  /\ cpu_temp (sampled env c t m g s) = t
  /\ memory_percent (sampled env c t m g s) = percent m
  /\ gpu_temp (sampled env c t m g s) = fst g
  /\ gpu_usage (sampled env c t m g s) = snd g.
Proof.
  unfold sampled, schedule_next, refresh_popup.
  destruct s as [r w v mon cp ct gt gu mp hk]. cbn.
  destruct v, w, mon; cbn; repeat split; reflexivity.
Qed.

(** While the popup is shown, a complete pass writes what it read to the
    labels. *)
Lemma sampled_popup (env : Env) (c : pyfloat) (t : string) (m : svmem)
      (g : string * string) (s : SystemMonitor) (w : Popup) :
  is_popup_visible s = true -> popup_window s = Some w ->
  popup_window (sampled env c t m g s)
  = Some {| cpu_usage_label := "Usage: " ++ format_f 1 c ++ "%";
            cpu_temp_label := "Temp: " ++ t;
            memory_label := "Usage: " ++ format_f 1 (percent m) ++ "%";
            gpu_usage_label := "Usage: " ++ snd g;
            gpu_temp_label := "Temp: " ++ fst g;
            timestamp_label := "Updated: " ++ now_hms env |}.
Proof.
  intros Hv Hw. unfold sampled, schedule_next, refresh_popup.
  destruct s as [r w0 v mon cp ct gt gu mp hk]. cbn in *. subst v w0. cbn.
  destruct mon; reflexivity.
Qed.

End Tick.

(* ================================================================== *)
(** * Properties of the resolver and of the tick *)
(* ================================================================== *)

Section ResolverClaims.
Context `{PyFloat}.

(** C1.  If the vendor tool runs, exits with code 0 and the first row of
    its output is "45, 62", then [get_gpu_info] returns the temperature
    "62°C" and the utilization "45%", and the only external call it makes
    is the one to the tool: neither the sensor service nor the performance
    counter is invoked.  A tick whose CPU and memory reads return stores
    these two values. *)
Theorem primary_tool_reading_stops_chain (env : Env) (r : CompletedProcess) :
  nvidia_smi env = Returns r ->
  returncode r = 0%Z ->
  nvidia_smi_row r = "45, 62" ->
  get_gpu_info env = ([Call_nvidia_smi], Returns ("62" ++ Str.degC, "45%"))
  /\ forall s c m,
       psutil_cpu_percent env = Returns c ->
       psutil_virtual_memory env = Returns m ->
       trace_of (update_system_info env) s
       = ([Call_cpu_percent; Call_sensors_temperatures; Call_virtual_memory;
           Call_nvidia_smi] ++ schedule_trace s)%list
       /\ gpu_usage (state_after (update_system_info env) s) = "45%"
       /\ gpu_temp (state_after (update_system_info env) s) = "62" ++ Str.degC.
Proof.
  intros Hr Hrc Hrow.
  assert (Hg : get_gpu_info env
               = ([Call_nvidia_smi], Returns ("62" ++ Str.degC, "45%"))).
  { apply get_gpu_info_primary.
    rewrite (nvidia_smi_strategy_completed env r Hr).
    unfold nvidia_smi_usable. rewrite Hrc, Hrow. reflexivity. }
  split; [exact Hg|].
  intros s c m Hc Hm. unfold trace_of, state_after.
  rewrite (update_system_info_complete env s c m _ _ Hc Hm Hg).
  cbn [fst snd].
  destruct (sampled_fields env c (cpu_temperature_reading env) m
              ("62" ++ Str.degC, "45%") s) as (_ & _ & _ & Ht & Hu).
  repeat split; assumption.
Qed.

(** C3, as the code has it.  Lines 66-82 return exactly when the vendor
    tool runs to its end, exits with code 0 and the first row of its
    stripped output contains the separator ", ".  The first two fields of
    that row, stripped, are then returned with their unit suffixes and the
    tool is the only call made; the fields are not examined any further.
    In every other case (another exit code, no such row, or an exception
    of the run) the block yields nothing and the chain goes on to the
    sensor service. *)
Theorem primary_tool_success_condition (env : Env) :
  (forall r,
     nvidia_smi env = Returns r -> nvidia_smi_usable r = true ->
     get_gpu_info env
     = ([Call_nvidia_smi],
        Returns (Str.strip (nth 1 (Str.split ", " (nvidia_smi_row r)) "") ++ Str.degC,
                 Str.strip (nth 0 (Str.split ", " (nvidia_smi_row r)) "") ++ "%")))
  /\ (primary_tool_fails env ->
        nvidia_smi_strategy env = ([Call_nvidia_smi], Returns None)
        /\ exists tr v,
             get_gpu_info env
             = ((Call_nvidia_smi :: Call_import_wmi :: tr)%list, Returns v)).
Proof.
  split.
  - intros r Hr Hu. apply get_gpu_info_primary.
    rewrite (nvidia_smi_strategy_completed env r Hr), Hu. reflexivity.
  - intros Hf. pose proof (primary_tool_fails_no_data env Hf) as Hs.
    split; [exact Hs|].
    pose proof (wmi_strategy_cases env) as Hw.
    destruct (wmi_import env) as [u1|e1].
    + destruct (wmi_connect env) as [u2|e2];
        [destruct (wmi_sensors env) as [l|e3]|].
      * rewrite (get_gpu_info_secondary env _ _ _ Hs Hw). cbn. eauto.
      * rewrite (get_gpu_info_tertiary env _ _ Hs Hw). cbn. eauto.
      * rewrite (get_gpu_info_tertiary env _ _ Hs Hw). cbn. eauto.
    + rewrite (get_gpu_info_tertiary env _ _ Hs Hw). cbn. eauto.
Qed.

(** C4, as the code has it.  When the vendor tool gives no data and the
    sensor service answers, the temperature returned is that of the last
    channel whose name contains "gpu" and whose type contains
    "temperature", and the utilization is that of the last channel whose
    name contains "gpu" and whose type contains "load" but not
    "temperature" (all case-insensitive): every later matching channel
    overrides the earlier ones.  A type without a matching channel gives
    "N/A". *)
Theorem last_gpu_channel_wins (env : Env) (sensors : list Sensor) :
  primary_tool_fails env ->
  wmi_import env = Returns tt ->
  wmi_connect env = Returns tt ->
  wmi_sensors env = Returns sensors ->
  get_gpu_info env
  = ([Call_nvidia_smi; Call_import_wmi; Call_wmi_WMI; Call_wmi_Sensor],
     Returns (channel_temperature (find gpu_temperature_channel (rev sensors)),
              channel_load (find gpu_load_channel (rev sensors)))).
Proof.
  intros Hp Hi Hc Hs.
  pose proof (wmi_strategy_cases env) as Hw. rewrite Hi, Hc, Hs in Hw.
  rewrite (get_gpu_info_secondary env _ _ _ (primary_tool_fails_no_data env Hp) Hw).
  rewrite sensor_loop_last_match. reflexivity.
Qed.

(** C5.  In an environment whose failures are exceptions of class
    [Exception] (tool not found, permission denied, timeout, service
    unavailable, malformed output), [get_gpu_info] returns a pair and
    raises nothing; when the vendor tool, the sensor service and the
    performance counter all fail, that pair is ("N/A", "N/A"); and the
    tick that calls it returns as well. *)
Theorem resolver_never_raises (env : Env) :
  Exception_only (nvidia_smi env) ->
  (exists tr v, get_gpu_info env = (tr, Returns v))
  /\ (primary_tool_fails env -> sensor_service_fails env ->
      performance_counter_fails env ->
      exists tr, get_gpu_info env = (tr, Returns ("N/A", "N/A")))
  /\ (forall s,
        Exception_only (psutil_cpu_percent env) ->
        Exception_only (psutil_virtual_memory env) ->
        exists tr s', update_system_info env s = (tr, s', Returns tt)).
Proof.
  intros Hn. split; [|split].
  - apply get_gpu_info_returns, Hn.
  - intros H1 H2 H3.
    destruct (sensor_service_fails_no_data env H2) as (t2 & Hw & _).
    rewrite (get_gpu_info_tertiary env _ _ (primary_tool_fails_no_data env H1) Hw).
    rewrite (performance_counter_fails_no_data env H3). cbn. eauto.
  - intros s Hc Hm. apply update_system_info_returns; assumption.
Qed.

(** C6, as the code has it.  Whichever source fails with an [Exception], a
    tick ends by scheduling the next one (while [monitoring] holds).  When
    the CPU-utilization and memory reads return, all four sources are read
    and stored, a failed CPU-temperature read and a resolver whose three
    strategies failed giving "N/A", and the popup, if shown, is refreshed
    from them.  When the CPU-utilization read raises, nothing else is
    read, no field changes and the popup is not refreshed; when the memory
    read raises, the two CPU fields are stored, the GPU is not read and
    the popup is not refreshed. *)
Theorem tick_publishes_what_was_read (env : Env) (s : SystemMonitor) :
  Exception_only (nvidia_smi env) ->
  (forall c m,
     psutil_cpu_percent env = Returns c ->
     psutil_virtual_memory env = Returns m ->
     exists tg g,
       get_gpu_info env = (tg, Returns g)
       /\ update_system_info env s
          = (([Call_cpu_percent; Call_sensors_temperatures; Call_virtual_memory]
                ++ tg ++ schedule_trace s)%list,
             sampled env c (cpu_temperature_reading env) m g s, Returns tt)
       /\ (forall e, psutil_sensors_temperatures env = Raises e ->
                     cpu_temp (sampled env c (cpu_temperature_reading env) m g s)
                     = "N/A")
       /\ (primary_tool_fails env -> sensor_service_fails env ->
           performance_counter_fails env -> g = ("N/A", "N/A")))
  /\ (forall e,
        psutil_cpu_percent env = Raises e -> is_Exception e = true ->
        update_system_info env s
        = (([Call_cpu_percent; Call_print (Monitoring_error e)]
              ++ schedule_trace s)%list,
           schedule_next s, Returns tt))
  /\ (forall c e,
        psutil_cpu_percent env = Returns c ->
        psutil_virtual_memory env = Raises e -> is_Exception e = true ->
        update_system_info env s
        = (([Call_cpu_percent; Call_sensors_temperatures; Call_virtual_memory;
             Call_print (Monitoring_error e)] ++ schedule_trace s)%list,
           schedule_next
             (set_cpu_temp (cpu_temperature_reading env) (set_cpu_percent c s)),
           Returns tt)).
Proof.
  intros Hn. split; [|split].
  - intros c m Hc Hm.
    destruct (get_gpu_info_returns env Hn) as (tg & g & Hg).
    exists tg, g. split; [exact Hg|]. split; [|split].
    + apply update_system_info_complete; assumption.
    + intros e He.
      destruct (sampled_fields env c (cpu_temperature_reading env) m g s)
        as (_ & -> & _).
      unfold cpu_temperature_reading. rewrite He. reflexivity.
    + intros H1 H2 H3.
      destruct (sensor_service_fails_no_data env H2) as (t2 & Hw & _).
      rewrite (get_gpu_info_tertiary env _ _ (primary_tool_fails_no_data env H1) Hw)
        in Hg.
      rewrite (performance_counter_fails_no_data env H3) in Hg. cbn in Hg.
      congruence.
  - intros e Hc He. apply update_system_info_cpu_failed; assumption.
  - intros c e Hc Hm He. apply update_system_info_memory_failed; assumption.
Qed.

End ResolverClaims.

(* ================================================================== *)
(** * Visibility, shutdown and the event loop *)
(* ================================================================== *)

Section Visibility.
Context `{PyFloat}.

Lemma tick_keeps_visibility (env : Env) (s : SystemMonitor) :
  is_popup_visible (state_after (update_system_info env) s) = is_popup_visible s
  /\ truthy_opt (popup_window (state_after (update_system_info env) s))
     = truthy_opt (popup_window s).
Proof.
  destruct s as [r w v mon cp ct gt gu mp hk].
  tick_cases env; destruct v, w, mon; cbn; split; reflexivity.
Qed.

Lemma tick_ignores_visibility (env : Env) (s : SystemMonitor)
      (w : option Popup) (v : bool) :
  trace_of (update_system_info env) (with_visibility w v s)
  = trace_of (update_system_info env) s
  /\ snd (update_system_info env (with_visibility w v s))
     = snd (update_system_info env s)
  /\ sampler_state (state_after (update_system_info env) (with_visibility w v s))
     = sampler_state (state_after (update_system_info env) s).
Proof.
  destruct s as [r w0 v0 mon cp ct gt gu mp hk]. unfold with_visibility.
  tick_cases env; destruct v, w, v0, w0, mon; cbn; repeat split; reflexivity.
Qed.

Lemma hide_popup_hidden (s : SystemMonitor) :
  is_popup_visible s = false -> hide_popup s = ([], s, Returns tt).
Proof. intros Hv. unfold hide_popup. act_run. rewrite Hv. reflexivity. Qed.

Lemma show_popup_shown (env : Env) (s : SystemMonitor) :
  is_popup_visible s = true -> show_popup env s = ([], s, Returns tt).
Proof. intros Hv. unfold show_popup. act_run. rewrite Hv. reflexivity. Qed.

(** The two visibility operations, case by case. *)
Lemma hide_popup_state (s : SystemMonitor) :
  hide_popup s
  = ([], if is_popup_visible s && truthy_opt (popup_window s)
         then set_is_popup_visible false (set_popup_window None s)
         else s,
     Returns tt).
Proof.
  unfold hide_popup. act_run.
  destruct (is_popup_visible s && truthy_opt (popup_window s)); reflexivity.
Qed.

Lemma show_popup_state (env : Env) (s : SystemMonitor) :
  show_popup env s
  = ([], if is_popup_visible s then s
         else set_is_popup_visible true
                (match popup_window s with
                 | Some _ => s
                 | None => set_popup_window (Some blank_popup) s
                 end),
     Returns tt).
Proof.
  unfold show_popup, create_popup, update_popup_content.
  destruct s as [r w v mon cp ct gt gu mp hk]. act_run. cbn.
  destruct v, w; reflexivity.
Qed.

Lemma toggle_state (env : Env) (s : SystemMonitor) :
  _toggle_popup_main_thread env s
  = if is_popup_visible s then hide_popup s else show_popup env s.
Proof.
  unfold _toggle_popup_main_thread. act_run.
  destruct (is_popup_visible s);
    [ destruct (hide_popup s) as [[t s'] r]
    | destruct (show_popup env s) as [[t s'] r] ]; reflexivity.
Qed.

Lemma shutdown_state (env : Env) (s : SystemMonitor) :
  shutdown env s
  = ([Call_unhook_all],
     let s1 := state_after hide_popup (set_monitoring false s) in
     let s2 := match keyboard_unhook_all env with
               | Returns _ => set_hotkey_hooked false s1
               | Raises _ => s1
               end in
     set_root (tk_quit (root s2)) s2,
     Returns tt).
Proof.
  unfold shutdown, state_after. destruct s as [r w v mon cp ct gt gu mp hk].
  unfold hide_popup. act_run. cbv beta iota zeta delta [invoke]. cbn.
  destruct (keyboard_unhook_all env) as [u|e]; destruct v, w; reflexivity.
Qed.

End Visibility.

Section EventLoopFacts.
Context `{PyFloat}.

Lemma enqueue_keeps_ticks (t : nat * callback) (q : list (nat * callback)) :
  is_tick_timer t = false ->
  filter is_tick_timer (enqueue t q) = filter is_tick_timer q.
Proof.
  intros Ht. induction q as [|x q IH]; cbn [enqueue filter].
  - rewrite Ht. reflexivity.
  - destruct (fst t <? fst x); cbn [filter].
    + rewrite Ht. reflexivity.
    + rewrite IH. reflexivity.
Qed.

Lemma toggle_popup_state (s : SystemMonitor) :
  toggle_popup s
  = ([Call_root_after 0],
     set_root (tk_after 0 cb_toggle_popup_main_thread (root s)) s, Returns tt).
Proof. reflexivity. Qed.

Lemma tick_not_monitoring (env : Env) (s : SystemMonitor) :
  monitoring s = false ->
  root (state_after (update_system_info env) s) = root s.
Proof.
  destruct s as [r w v mon cp ct gt gu mp hk]. cbn. intros ->.
  tick_cases env; destruct v, w; reflexivity.
Qed.

Lemma ticks_run_app (a b : list (thread * call)) :
  ticks_run (a ++ b) = ticks_run a + ticks_run b.
Proof. unfold ticks_run. rewrite filter_app, length_app. reflexivity. Qed.

(** Once [quit()] has been called the loop serves nothing; only the hotkey
    thread can still post. *)
Lemma handle_after_quit (env : Env) (ev : event) (s : SystemMonitor) :
  quit_requested (root s) = true ->
  quit_requested (root (snd (handle env ev s))) = true
  /\ monitoring (snd (handle env ev s)) = monitoring s
  /\ Forall (fun tc => tc = (HotkeyThread, Call_root_after 0)) (fst (handle env ev s)).
Proof.
  intros Hq. unfold handle. rewrite Hq.
  destruct ev; cbn [fst snd]; try (repeat split; [assumption | constructor]).
  destruct (hotkey_hooked s); cbn [fst snd].
  - rewrite toggle_popup_state. cbn. repeat split; [assumption|].
    repeat constructor.
  - repeat split; [assumption | constructor].
Qed.

Lemma mainloop_after_quit (evs : list (Env * event)) :
  forall s, quit_requested (root s) = true ->
  Forall (fun tc => tc = (HotkeyThread, Call_root_after 0)) (fst (mainloop evs s))
  /\ quit_requested (root (snd (mainloop evs s))) = true
  /\ monitoring (snd (mainloop evs s)) = monitoring s.
Proof.
  induction evs as [|[env ev] evs IH]; intros s Hq; cbn [mainloop].
  - repeat split; [constructor | assumption].
  - destruct (handle_after_quit env ev s Hq) as (Hq1 & Hm1 & Ht1).
    destruct (handle env ev s) as [tr s1]. cbn [fst snd] in *.
    destruct (IH s1 Hq1) as (Ht2 & Hq2 & Hm2).
    destruct (mainloop evs s1) as [tr' s2]. cbn [fst snd] in *.
    repeat split; [apply Forall_app; split; assumption | assumption | congruence].
Qed.

Lemma posts_have_no_tick (tr : list (thread * call)) :
  Forall (fun tc => tc = (HotkeyThread, Call_root_after 0)) tr -> ticks_run tr = 0.
Proof.
  induction 1 as [|tc tr Htc _ IH]; [reflexivity|].
  subst tc. exact IH.
Qed.

(** Every step of the loop keeps the hotkey thread to posting. *)
Lemma on_main_thread (tr : list call) : Forall hotkey_thread_call (on MainThread tr).
Proof. induction tr; constructor; [exact I | assumption]. Qed.

Lemma on_init_threads (tr : list call) : Forall hotkey_thread_call (on_init tr).
Proof.
  induction tr as [|c tr IH]; constructor; [|exact IH].
  unfold hotkey_thread_call, init_thread. cbn [fst snd].
  destruct c as [| | | | | | | | | | ms |l]; try exact I.
  - left. reflexivity.
  - destruct l; try exact I. right. left. eauto.
Qed.

Lemma handle_threads (env : Env) (ev : event) (s : SystemMonitor) :
  Forall hotkey_thread_call (fst (handle env ev s)).
Proof.
  unfold handle.
  destruct ev.
  - destruct (quit_requested (root s)); [constructor|].
    destruct (dispatch_timer env s). apply on_main_thread.
  - destruct (hotkey_hooked s); [|constructor].
    rewrite toggle_popup_state. constructor; [|constructor].
    right. right. reflexivity.
  - destruct (quit_requested (root s)); [constructor|].
    destruct (hide_popup s) as [[tr s'] r]. apply on_main_thread.
  - destruct (quit_requested (root s)); [constructor|].
    destruct (shutdown env s) as [[tr s'] r]. apply on_main_thread.
  - destruct (quit_requested (root s)); [constructor|].
    destruct (shutdown env s) as [[tr s'] r]. apply on_main_thread.
Qed.

Lemma mainloop_threads (evs : list (Env * event)) :
  forall s, Forall hotkey_thread_call (fst (mainloop evs s)).
Proof.
  induction evs as [|[env ev] evs IH]; intros s; cbn [mainloop].
  - constructor.
  - pose proof (handle_threads env ev s) as Hh.
    destruct (handle env ev s) as [tr s1].
    specialize (IH s1). destruct (mainloop evs s1) as [tr' s2].
    apply Forall_app. split; assumption.
Qed.

Lemma main_threads (env0 : Env) (evs : list (Env * event)) :
  Forall hotkey_thread_call (fst (main env0 evs)).
Proof.
  unfold main. destruct (__init__ env0 fresh_root) as [[tr s] [u|e]].
  - pose proof (mainloop_threads evs s) as Hl.
    destruct (mainloop evs s) as [tr' s']. apply Forall_app.
    split; [apply on_init_threads | exact Hl].
  - apply on_init_threads.
Qed.

(** ** The sampling timer along a run *)

Lemma enqueue_adds_tick (t : nat * callback) (q : list (nat * callback)) :
  is_tick_timer t = true ->
  List.length (filter is_tick_timer (enqueue t q))
  = S (List.length (filter is_tick_timer q)).
Proof.
  intros Ht. induction q as [|x q IH]; cbn [enqueue filter].
  - rewrite Ht. reflexivity.
  - destruct (fst t <? fst x); cbn [filter].
    + rewrite Ht. reflexivity.
    + destruct (is_tick_timer x); cbn [List.length]; rewrite IH; reflexivity.
Qed.

(** A tick that meets no interrupt returns, keeps [monitoring] and adds
    its successor to the timers, and nothing else. *)
Lemma tick_schedules (env : Env) (s : SystemMonitor) :
  failures_are_Exceptions env ->
  exists tr s',
    update_system_info env s = (tr, s', Returns tt)
    /\ monitoring s' = monitoring s
    /\ root s' = if monitoring s
                 then tk_after 2000 cb_update_system_info (root s)
                 else root s.
Proof.
  intros (Hc & Hm & Hn).
  destruct (psutil_cpu_percent env) as [c|e] eqn:Ec.
  - destruct (psutil_virtual_memory env) as [m|e] eqn:Em.
    + destruct (get_gpu_info_returns env Hn) as (tg & g & Hg).
      rewrite (update_system_info_complete env s c m tg g Ec Em Hg).
      eexists _, _. split; [reflexivity|].
      unfold sampled, schedule_next, refresh_popup.
      destruct s as [r w v mon cp ct gt gu mp hk]. cbn.
      destruct v, w, mon; split; reflexivity.
    + rewrite (update_system_info_memory_failed env s c e Ec Em Hm).
      eexists _, _. split; [reflexivity|]. unfold schedule_next.
      destruct s as [r w v mon cp ct gt gu mp hk]. cbn.
      destruct mon; split; reflexivity.
  - rewrite (update_system_info_cpu_failed env s e Ec Hc).
    eexists _, _. split; [reflexivity|]. unfold schedule_next.
    destruct s as [r w v mon cp ct gt gu mp hk]. cbn.
    destruct mon; split; reflexivity.
Qed.

Lemma toggle_keeps_sampler (env : Env) (s : SystemMonitor) :
  exists s',
    _toggle_popup_main_thread env s = ([], s', Returns tt)
    /\ monitoring s' = monitoring s /\ root s' = root s.
Proof.
  rewrite toggle_state, hide_popup_state, show_popup_state.
  destruct s as [r w v mon cp ct gt gu mp hk]. cbn.
  destruct v, w; cbn; eexists; repeat split; reflexivity.
Qed.

Lemma alive_dispatch (env : Env) (s : SystemMonitor) :
  failures_are_Exceptions env ->
  sampler_alive s -> sampler_alive (snd (dispatch_timer env s)).
Proof.
  intros He Hs. unfold dispatch_timer.
  destruct (after_queue (root s)) as [|[due cb] q] eqn:Hq; [exact Hs|].
  set (s1 := set_root _ s).
  assert (Hm1 : monitoring s1 = monitoring s) by reflexivity.
  assert (Hr1 : after_queue (root s1) = q) by reflexivity.
  unfold sampler_alive, pending_ticks in *. rewrite Hq in Hs.
  destruct cb; cbn [run_callback].
  - destruct (tick_schedules env s1 He) as (tr & s2 & -> & Hm2 & Hr2).
    cbn [fst snd]. rewrite Hm2, Hm1. intros Hmon.
    rewrite Hr2, Hm1, Hmon. cbn [tk_after after_queue].
    rewrite enqueue_adds_tick by reflexivity. rewrite Hr1.
    specialize (Hs Hmon). cbn in Hs. congruence.
  - destruct (toggle_keeps_sampler env s1) as (s2 & -> & Hm2 & Hr2).
    cbn [fst snd]. rewrite Hm2, Hr2, Hm1, Hr1. exact Hs.
Qed.

Lemma alive_handle (env : Env) (ev : event) (s : SystemMonitor) :
  failures_are_Exceptions env ->
  sampler_alive s -> sampler_alive (snd (handle env ev s)).
Proof.
  intros He Hs. unfold handle.
  destruct ev.
  - destruct (quit_requested (root s)); [exact Hs|].
    pose proof (alive_dispatch env s He Hs) as Hd.
    destruct (dispatch_timer env s). exact Hd.
  - destruct (hotkey_hooked s); [|exact Hs].
    rewrite toggle_popup_state. unfold sampler_alive, pending_ticks in *.
    cbn. rewrite enqueue_keeps_ticks by reflexivity. exact Hs.
  - destruct (quit_requested (root s)); [exact Hs|].
    rewrite hide_popup_state. cbn [snd fst].
    destruct (is_popup_visible s && truthy_opt (popup_window s)); exact Hs.
  - destruct (quit_requested (root s)); [exact Hs|].
    rewrite shutdown_state. cbn [fst snd]. unfold state_after.
    rewrite hide_popup_state. unfold sampler_alive.
    destruct s as [r w v mon cp ct gt gu mp hk]. cbn.
    destruct (keyboard_unhook_all env); destruct v, w; discriminate.
  - destruct (quit_requested (root s)); [exact Hs|].
    rewrite shutdown_state. cbn [fst snd]. unfold state_after.
    rewrite hide_popup_state. unfold sampler_alive.
    destruct s as [r w v mon cp ct gt gu mp hk]. cbn.
    destruct (keyboard_unhook_all env); destruct v, w; discriminate.
Qed.

Lemma alive_mainloop (evs : list (Env * event)) :
  Forall (fun p => failures_are_Exceptions (fst p)) evs ->
  forall s, sampler_alive s -> sampler_alive (snd (mainloop evs s)).
Proof.
  induction 1 as [|[env ev] evs He _ IH]; intros s Hs; cbn [mainloop].
  - exact Hs.
  - pose proof (alive_handle env ev s He Hs) as Hh.
    destruct (handle env ev s) as [tr s1].
    specialize (IH s1 Hh). destruct (mainloop evs s1) as [tr' s2]. exact IH.
Qed.

Lemma alive_init (env : Env) :
  failures_are_Exceptions env ->
  sampler_alive (snd (fst (__init__ env fresh_root))).
Proof.
  intros He. unfold __init__, setup_hotkey_monitoring. act_run. io_run.
  assert (Hgo : forall s0, monitoring s0 = true -> after_queue (root s0) = [] ->
                sampler_alive
                  (snd (fst (let (p, o) := update_system_info env s0 in
                             let (t, s1) := p in
                             match o with
                             | Returns _ =>
                                 ((t ++ [Call_print Startup_banner])%list, s1, Returns tt)
                             | Raises e => (t, s1, Raises e)
                             end)))).
  { intros s0 Hm0 Hq0.
    destruct (tick_schedules env s0 He) as (tr & s1 & -> & Hm1 & Hr1).
    cbn [fst snd]. unfold sampler_alive, pending_ticks.
    rewrite Hr1, Hm0. cbn [tk_after after_queue]. rewrite Hq0. reflexivity. }
  destruct (keyboard_add_hotkey env) as [u|e]; cbn -[update_system_info].
  - match goal with
    | |- context [update_system_info env ?s0] =>
        specialize (Hgo s0 eq_refl eq_refl);
        destruct (update_system_info env s0) as [[tr s1] [u1|e1]]; exact Hgo
    end.
  - destruct (is_Exception e); cbn -[update_system_info];
      match goal with
      | |- context [update_system_info env ?s0] =>
          specialize (Hgo s0 eq_refl eq_refl);
          destruct (update_system_info env s0) as [[tr s1] [u1|e1]]; exact Hgo
      end.
Qed.

(** In a run that meets no interrupt, exactly one sampling timer is
    pending for as long as [monitoring] holds, whatever toggles and
    closings of the popup occur. *)
Lemma sampler_alive_in_main (env0 : Env) (evs : list (Env * event)) :
  failures_are_Exceptions env0 ->
  Forall (fun p => failures_are_Exceptions (fst p)) evs ->
  sampler_alive (snd (main env0 evs)).
Proof.
  intros H0 Hevs. unfold main. pose proof (alive_init env0 H0) as Hi.
  destruct (__init__ env0 fresh_root) as [[tr s] [u|e]]; cbn [fst snd] in Hi.
  - pose proof (alive_mainloop evs Hevs s Hi) as Hl.
    destruct (mainloop evs s) as [tr' s']. exact Hl.
  - exact Hi.
Qed.

(** ** The invariant along a run *)

Lemma inv_set_root (r : TkRoot) (s : SystemMonitor) :
  visibility_inv s -> visibility_inv (set_root r s).
Proof. exact (fun Hs => Hs). Qed.

Lemma inv_hide (s : SystemMonitor) :
  visibility_inv s -> visibility_inv (state_after hide_popup s).
Proof.
  unfold state_after. rewrite hide_popup_state. unfold visibility_inv.
  destruct s as [r w v mon cp ct gt gu mp hk]. cbn.
  destruct v, w; cbn; congruence.
Qed.

Lemma inv_show (env : Env) (s : SystemMonitor) :
  visibility_inv s -> visibility_inv (state_after (show_popup env) s).
Proof.
  unfold state_after. rewrite show_popup_state. unfold visibility_inv.
  destruct s as [r w v mon cp ct gt gu mp hk]. cbn.
  destruct v, w; cbn; congruence.
Qed.

Lemma inv_toggle (env : Env) (s : SystemMonitor) :
  visibility_inv s ->
  visibility_inv (state_after (_toggle_popup_main_thread env) s).
Proof.
  intros Hs. unfold state_after. rewrite toggle_state.
  destruct (is_popup_visible s); [apply inv_hide | apply inv_show]; exact Hs.
Qed.

Lemma inv_tick (env : Env) (s : SystemMonitor) :
  visibility_inv s -> visibility_inv (state_after (update_system_info env) s).
Proof.
  unfold visibility_inv. intros Hs.
  destruct (tick_keeps_visibility env s) as [-> ->]. exact Hs.
Qed.

Lemma inv_shutdown (env : Env) (s : SystemMonitor) :
  visibility_inv s -> visibility_inv (state_after (shutdown env) s).
Proof.
  unfold state_after at 1. rewrite shutdown_state. cbn [fst snd].
  unfold state_after. rewrite hide_popup_state. unfold visibility_inv.
  destruct s as [r w v mon cp ct gt gu mp hk]. cbn.
  destruct (keyboard_unhook_all env); destruct v, w; cbn; congruence.
Qed.

Lemma inv_dispatch (env : Env) (s : SystemMonitor) :
  visibility_inv s -> visibility_inv (snd (dispatch_timer env s)).
Proof.
  intros Hs. unfold dispatch_timer.
  destruct (after_queue (root s)) as [|[due cb] q]; [exact Hs|].
  set (s1 := set_root _ s).
  assert (H1 : visibility_inv (state_after (run_callback cb env) s1)).
  { destruct cb; [apply inv_tick | apply inv_toggle]; exact Hs. }
  unfold state_after in H1.
  destruct (run_callback cb env s1) as [[tr s2] [u|e]]; cbn [fst snd] in *;
    [exact H1|].
  destruct e; exact H1.
Qed.

Lemma inv_handle (env : Env) (ev : event) (s : SystemMonitor) :
  visibility_inv s -> visibility_inv (snd (handle env ev s)).
Proof.
  intros Hs. unfold handle.
  destruct ev.
  - destruct (quit_requested (root s)); [exact Hs|].
    pose proof (inv_dispatch env s Hs) as Hd.
    destruct (dispatch_timer env s). exact Hd.
  - destruct (hotkey_hooked s); [|exact Hs].
    rewrite toggle_popup_state. exact Hs.
  - destruct (quit_requested (root s)); [exact Hs|].
    pose proof (inv_hide s Hs) as Hh. unfold state_after in Hh.
    destruct (hide_popup s) as [[tr s'] r]. exact Hh.
  - destruct (quit_requested (root s)); [exact Hs|].
    pose proof (inv_shutdown env s Hs) as Hh. unfold state_after in Hh.
    destruct (shutdown env s) as [[tr s'] r]. exact Hh.
  - destruct (quit_requested (root s)); [exact Hs|].
    pose proof (inv_shutdown env s Hs) as Hh. unfold state_after in Hh.
    destruct (shutdown env s) as [[tr s'] r]. exact Hh.
Qed.

Lemma inv_mainloop (evs : list (Env * event)) :
  forall s, visibility_inv s -> visibility_inv (snd (mainloop evs s)).
Proof.
  induction evs as [|[env ev] evs IH]; intros s Hs; cbn [mainloop].
  - exact Hs.
  - pose proof (inv_handle env ev s Hs) as Hh.
    destruct (handle env ev s) as [tr s1].
    specialize (IH s1 Hh). destruct (mainloop evs s1) as [tr' s2]. exact IH.
Qed.

Lemma inv_init (env : Env) (r : TkRoot) :
  visibility_inv (snd (fst (__init__ env r))).
Proof.
  unfold __init__, setup_hotkey_monitoring. act_run.
  cbv beta iota zeta delta [invoke print].
  destruct (keyboard_add_hotkey env) as [u|e]; cbn -[update_system_info].
  - match goal with
    | |- context [update_system_info env ?s0] =>
        pose proof (inv_tick env s0 eq_refl) as Ht; unfold state_after in Ht;
        destruct (update_system_info env s0) as [[tr s1] [u1|e1]]; exact Ht
    end.
  - destruct (is_Exception e); cbn -[update_system_info];
      match goal with
      | |- context [update_system_info env ?s0] =>
          pose proof (inv_tick env s0 eq_refl) as Ht; unfold state_after in Ht;
          destruct (update_system_info env s0) as [[tr s1] [u1|e1]]; exact Ht
      end.
Qed.

Lemma inv_main (env0 : Env) (evs : list (Env * event)) :
  visibility_inv (snd (main env0 evs)).
Proof.
  unfold main. pose proof (inv_init env0 fresh_root) as Hi.
  destruct (__init__ env0 fresh_root) as [[tr s] [u|e]]; cbn [fst snd] in Hi.
  - pose proof (inv_mainloop evs s Hi) as Hl.
    destruct (mainloop evs s) as [tr' s']. exact Hl.
  - exact Hi.
Qed.

End EventLoopFacts.

Section VisibilityClaims.
Context `{PyFloat}.

(** C7.  From any state, two toggles in succession leave the visibility
    flag as it was, and from a hidden state they restore the whole object.
    The toggles touch neither the stored metrics, nor the [monitoring]
    flag, nor the Tk root with its timers; the post of a toggle by the
    hotkey thread leaves the pending sampling timers as they are; a tick
    makes the same calls, ends the same way and leaves the same metrics
    and timers whatever the popup state is; and in every run that meets no
    interrupt exactly one sampling timer stays pending while [monitoring]
    holds, whatever toggles occur. *)
Theorem toggle_twice_restores_visibility (env1 env2 : Env) (s : SystemMonitor) :
  let s2 := state_after (_toggle_popup_main_thread env2)
              (state_after (_toggle_popup_main_thread env1) s) in
  is_popup_visible s2 = is_popup_visible s
  /\ (visibility_inv s -> is_popup_visible s = false -> s2 = s)
  /\ sampler_state s2 = sampler_state s
  /\ pending_ticks (state_after toggle_popup s) = pending_ticks s
  /\ (forall env w v,
        trace_of (update_system_info env) (with_visibility w v s)
        = trace_of (update_system_info env) s
        /\ snd (update_system_info env (with_visibility w v s))
           = snd (update_system_info env s)
        /\ sampler_state (state_after (update_system_info env) (with_visibility w v s))
           = sampler_state (state_after (update_system_info env) s))
  /\ (forall env0 evs,
        failures_are_Exceptions env0 ->
        Forall (fun p => failures_are_Exceptions (fst p)) evs ->
        sampler_alive (snd (main env0 evs))).
Proof.
  cbv zeta. unfold state_after at 1 2.
  rewrite !toggle_state, !hide_popup_state, !show_popup_state.
  split; [|split; [|split; [|split; [|split]]]].
  - destruct s as [r w v mon cp ct gt gu mp hk].
    destruct v, w; reflexivity.
  - unfold visibility_inv. destruct s as [r w v mon cp ct gt gu mp hk]. cbn.
    intros Hi ->. destruct w; [discriminate | reflexivity].
  - destruct s as [r w v mon cp ct gt gu mp hk].
    destruct v, w; reflexivity.
  - unfold state_after, pending_ticks. rewrite toggle_popup_state. cbn.
    apply enqueue_keeps_ticks. reflexivity.
  - intros env w v. apply tick_ignores_visibility.
  - intros env0 evs. apply sampler_alive_in_main.
Qed.

(** C8.  [shutdown] returns without raising in every state and whatever
    [keyboard.unhook_all] does.  It leaves [monitoring] false and the Tk
    root told to quit, so that the event loop runs no sampling pass after
    it, whatever events follow, and a pass run on the object would schedule
    no successor.  A second call changes nothing.  Called on a monitor
    whose sampler was never started it returns as well, with no timer
    pending. *)
Theorem shutdown_stops_sampling (env : Env) (s : SystemMonitor) :
  let s' := state_after (shutdown env) s in
  shutdown env s = ([Call_unhook_all], s', Returns tt)
  /\ monitoring s' = false
  /\ quit_requested (root s') = true
  /\ (forall evs, ticks_run (fst (mainloop evs s')) = 0
                  /\ monitoring (snd (mainloop evs s')) = false)
  /\ (forall env', root (state_after (update_system_info env') s') = root s')
  /\ state_after (shutdown env) s' = s'
  /\ (forall env', exists tr s'', shutdown env' s' = (tr, s'', Returns tt))
  /\ (exists s0, shutdown env (new_monitor fresh_root) = ([Call_unhook_all], s0, Returns tt)
                 /\ after_queue (root s0) = []).
Proof.
  cbv zeta.
  assert (Hm : monitoring (state_after (shutdown env) s) = false).
  { unfold state_after at 1. rewrite shutdown_state. cbn [fst snd].
    unfold state_after. rewrite hide_popup_state.
    destruct s as [r w v mon cp ct gt gu mp hk]. cbn.
    destruct (keyboard_unhook_all env); destruct v, w; reflexivity. }
  assert (Hq : quit_requested (root (state_after (shutdown env) s)) = true).
  { unfold state_after at 1. rewrite shutdown_state. reflexivity. }
  split; [|split; [exact Hm | split; [exact Hq|]]].
  - unfold state_after at 1. rewrite shutdown_state. reflexivity.
  - split; [|split; [|split; [|split]]].
    + intros evs.
      destruct (mainloop_after_quit evs _ Hq) as (Hp & _ & Hmon).
      split; [apply posts_have_no_tick, Hp | congruence].
    + intros env'. apply tick_not_monitoring, Hm.
    + unfold state_after at 1 2. rewrite !shutdown_state. cbn [fst snd].
      unfold state_after. rewrite !hide_popup_state.
      destruct s as [r w v mon cp ct gt gu mp hk]. cbn.
      destruct (keyboard_unhook_all env); destruct v, w; reflexivity.
    + intros env'. rewrite shutdown_state. eauto.
    + rewrite shutdown_state. eexists. split; [reflexivity|].
      cbn. destruct (keyboard_unhook_all env); reflexivity.
Qed.

(** C9, as the code has it.  In every run of [main], whatever the
    environment and the events, the hotkey thread does nothing but
    register the hotkey (or report that it could not) and post the toggle
    with [root.after(0, ...)]; every sampling call, the external processes
    of the resolver included, is made on the thread that owns the Tk root
    and runs its event loop. *)
Theorem sampling_runs_on_the_ui_thread (env0 : Env) (evs : list (Env * event)) :
  Forall hotkey_thread_call (fst (main env0 evs))
  /\ forall t c, In (t, c) (fst (main env0 evs)) ->
                 sampling_call c = true -> t = MainThread.
Proof.
  pose proof (main_threads env0 evs) as Hf. split; [exact Hf|].
  intros t c Hin Hs. rewrite Forall_forall in Hf.
  specialize (Hf (t, c) Hin). unfold hotkey_thread_call in Hf. cbn in Hf.
  destruct t; [reflexivity|].
  destruct Hf as [-> | [[e ->] | ->]]; discriminate.
Qed.

(** C10.  The visibility flag is true exactly when a popup window exists:
    this holds of a new monitor and at the end of every run of [main], and
    each of [show_popup], [hide_popup], the toggle and its post,
    [shutdown] and the tick keeps it.  Hiding while hidden and showing
    while shown change nothing. *)
Theorem visibility_invariant (env : Env) (s : SystemMonitor) :
  visibility_inv s ->
  visibility_inv (state_after (show_popup env) s)
  /\ visibility_inv (state_after hide_popup s)
  /\ visibility_inv (state_after (_toggle_popup_main_thread env) s)
  /\ visibility_inv (state_after toggle_popup s)
  /\ visibility_inv (state_after (shutdown env) s)
  /\ visibility_inv (state_after (update_system_info env) s)
  /\ (is_popup_visible s = false -> hide_popup s = ([], s, Returns tt))
  /\ (is_popup_visible s = true -> show_popup env s = ([], s, Returns tt))
  /\ (forall r, visibility_inv (new_monitor r)
                /\ is_popup_visible (new_monitor r) = false
                /\ popup_window (new_monitor r) = None)
  /\ (forall env0 evs, visibility_inv (snd (main env0 evs))).
Proof.
  intros Hs. repeat split.
  - apply inv_show, Hs.
  - apply inv_hide, Hs.
  - apply inv_toggle, Hs.
  - exact Hs.
  - apply inv_shutdown, Hs.
  - apply inv_tick, Hs.
  - apply hide_popup_hidden.
  - apply show_popup_shown.
  - apply inv_main.
Qed.

End VisibilityClaims.

(* ================================================================== *)
(** * Further properties of the sources *)
(* ================================================================== *)

Section SourceFacts.
Context `{PyFloat}.

Lemma scan_temperatures_first_group (temps : list (string * list shwtemp)) :
  scan_temperatures temps = group_temperature (find cpu_group temps).
Proof.
  induction temps as [|[name entries] temps IH]; [reflexivity|].
  cbn [scan_temperatures find]. unfold cpu_group at 1. cbn [fst snd].
  destruct entries as [|entry entries]; cbn [Str.truthy_list andb].
  - exact IH.
  - destruct (cpu_channel name); [reflexivity | exact IH].
Qed.

(** X1.  [get_cpu_temperature] makes one call and never raises, whatever
    that call raises, interrupts included.  It returns the current value
    of the first entry of the first group that has an entry and whose name
    contains "cpu" or "core" (case-insensitive); a CPU-named group without
    entries is passed over; and it returns "N/A" when there is no such
    group or the call raises. *)
Theorem cpu_temperature_first_group_wins (env : Env) :
  get_cpu_temperature env
  = ([Call_sensors_temperatures],
     Returns match psutil_sensors_temperatures env with
             | Returns temps => group_temperature (find cpu_group temps)
             | Raises _ => "N/A"
             end).
Proof.
  rewrite get_cpu_temperature_returns. unfold cpu_temperature_reading.
  destruct (psutil_sensors_temperatures env) as [temps|e]; [|reflexivity].
  rewrite scan_temperatures_first_group. reflexivity.
Qed.

(** Every run of the resolver leaves one of five traces. *)
Lemma get_gpu_info_traces (env : Env) :
  In (fst (get_gpu_info env)) resolver_traces.
Proof.
  assert (H1 : (exists v, nvidia_smi_strategy env = ([Call_nvidia_smi], Returns (Some v)))
               \/ nvidia_smi_strategy env = ([Call_nvidia_smi], Returns None)
               \/ exists e, nvidia_smi env = Raises e /\ is_Exception e = false).
  { destruct (nvidia_smi env) as [r|e] eqn:Hn.
    - rewrite (nvidia_smi_strategy_completed env r Hn).
      destruct (nvidia_smi_usable r); eauto.
    - rewrite (nvidia_smi_strategy_raised env e Hn).
      destruct (is_Exception e) eqn:He; eauto. }
  destruct H1 as [[v H1] | [H1 | (e & Hn & He)]].
  - rewrite (get_gpu_info_primary env _ v H1). cbn. tauto.
  - pose proof (wmi_strategy_cases env) as Hw.
    destruct (wmi_import env) as [u1|e1].
    + destruct (wmi_connect env) as [u2|e2];
        [destruct (wmi_sensors env) as [l|e3]|].
      * rewrite (get_gpu_info_secondary env _ _ _ H1 Hw). cbn. tauto.
      * rewrite (get_gpu_info_tertiary env _ _ H1 Hw). cbn. tauto.
      * rewrite (get_gpu_info_tertiary env _ _ H1 Hw). cbn. tauto.
    + rewrite (get_gpu_info_tertiary env _ _ H1 Hw). cbn. tauto.
  - rewrite (get_gpu_info_interrupted env e Hn He). cbn. tauto.
Qed.


(** X2.  When the vendor tool and the sensor service both give nothing,
    the performance counter is the last call and decides the utilization:
    the formatted value with one decimal when PowerShell exits with code
    0 and its stripped output is not empty and is read by [float], and
    "N/A" otherwise; an output that [float] rejects raises nothing.  The
    temperature is "N/A" in every case. *)
Theorem counter_gives_utilization_only (env : Env) (r : CompletedProcess) :
  primary_tool_fails env ->
  sensor_service_fails env ->
  powershell_counter env = Returns r ->
  exists t2,
    incl t2 [Call_import_wmi; Call_wmi_WMI; Call_wmi_Sensor]
    /\ get_gpu_info env
       = ((Call_nvidia_smi :: t2 ++ [Call_powershell_counter])%list,
          Returns ("N/A",
                   match float_of_str (Str.strip (stdout r)) with
                   | Some v =>
                       if (returncode r =? 0)%Z && Str.truthy (Str.strip (stdout r))
                       then format_f 1 v ++ "%"
                       else "N/A"
                   | None => "N/A"
                   end)).
Proof.
  intros H1 H2 Hr.
  destruct (sensor_service_fails_no_data env H2) as (t2 & Hw & Hincl).
  exists t2. split; [exact Hincl|].
  rewrite (get_gpu_info_tertiary env _ _ (primary_tool_fails_no_data env H1) Hw).
  rewrite powershell_strategy_cases, Hr. unfold counter_usable. cbn [snd app].
  destruct ((returncode r =? 0)%Z && Str.truthy (Str.strip (stdout r)));
    destruct (float_of_str (Str.strip (stdout r))); reflexivity.
Qed.


Lemma resolver_calls_bounded_aux (env : Env) :
  Forall (fun c => sampling_call c = true) (fst (get_gpu_info env)).
Proof.
  pose proof (get_gpu_info_traces env) as Hin. unfold resolver_traces in Hin.
  cbn [In] in Hin.
  destruct Hin as [<- | [<- | [<- | [<- | [<- | []]]]]]; repeat constructor.
Qed.

(** X4.  One run of the resolver makes each external call at most once,
    starts with the vendor tool, starts at most two processes (the vendor
    tool and PowerShell, each bounded by its 5 second timeout), and makes
    no call that is not a read of a GPU source. *)
Theorem resolver_calls_bounded (env : Env) :
  NoDup (fst (get_gpu_info env))
  /\ hd_error (fst (get_gpu_info env)) = Some Call_nvidia_smi
  /\ List.length (filter spawns_process (fst (get_gpu_info env))) <= 2
  /\ List.length (fst (get_gpu_info env)) <= 5
  /\ Forall (fun c => sampling_call c = true) (fst (get_gpu_info env)).
Proof.
  pose proof (get_gpu_info_traces env) as Hin. unfold resolver_traces in Hin.
  cbn [In] in Hin.
  destruct Hin as [<- | [<- | [<- | [<- | [<- | []]]]]];
    (split; [repeat constructor; cbn; intuition discriminate|]);
    (split; [reflexivity|]); cbn; (split; [lia|]); (split; [lia|]);
    repeat constructor.
Qed.

Lemma resolver_raises_only_on_interrupt_aux (env : Env) :
  forall tr e, get_gpu_info env = (tr, Raises e) -> nvidia_smi env = Raises e.
Proof.
  intros tr e Htr.
  destruct (nvidia_smi env) as [r|e0] eqn:Hn.
  - assert (Hx : Exception_only (nvidia_smi env)) by (rewrite Hn; exact I).
    destruct (get_gpu_info_returns env Hx) as (tr' & v & Hv). congruence.
  - destruct (is_Exception e0) eqn:He0.
    + assert (Hx : Exception_only (nvidia_smi env)) by (rewrite Hn; exact He0).
      destruct (get_gpu_info_returns env Hx) as (tr' & v & Hv). congruence.
    + rewrite (get_gpu_info_interrupted env e0 Hn He0) in Htr. congruence.
Qed.

(** X5.  [get_gpu_info] raises exactly when the run of the vendor tool
    raises something that is not an [Exception] (an interrupt), and it
    then raises that; the handler of its outer [try] is never entered, so
    "GPU info error" is never printed. *)
Theorem resolver_raises_only_on_interrupt (env : Env) (e : exc) :
  ((exists tr, get_gpu_info env = (tr, Raises e))
   <-> nvidia_smi env = Raises e /\ is_Exception e = false)
  /\ forall e', ~ In (Call_print (GPU_info_error e')) (fst (get_gpu_info env)).
Proof.
  split.
  - split.
    + intros [tr Htr].
      destruct (nvidia_smi env) as [r|e0] eqn:Hn.
      * assert (Hx : Exception_only (nvidia_smi env)) by (rewrite Hn; exact I).
        destruct (get_gpu_info_returns env Hx) as (tr' & v & Hv). congruence.
      * destruct (is_Exception e0) eqn:He0.
        -- assert (Hx : Exception_only (nvidia_smi env)) by (rewrite Hn; exact He0).
           destruct (get_gpu_info_returns env Hx) as (tr' & v & Hv). congruence.
        -- rewrite (get_gpu_info_interrupted env e0 Hn He0) in Htr.
           injection Htr as _ <-. split; [reflexivity | exact He0].
    + intros [Hn He]. rewrite (get_gpu_info_interrupted env e Hn He). eauto.
  - intros e' Hin.
    pose proof (resolver_calls_bounded_aux env) as Hall.
    rewrite Forall_forall in Hall. specialize (Hall _ Hin). discriminate Hall.
Qed.

End SourceFacts.

(* ================================================================== *)
(** * The first row of the vendor tool's output *)
(* ================================================================== *)

Lemma append_empty_r (s : string) : s ++ "" = s.
Proof. induction s; simpl; congruence. Qed.

Lemma append_assoc (a b c : string) : (a ++ b) ++ c = a ++ (b ++ c).
Proof. induction a; simpl; congruence. Qed.

Lemma lstrip_shorter (s : string) :
  Str.lstrip s = s \/ String.length (Str.lstrip s) < String.length s.
Proof.
  induction s as [|c s IH]; [left; reflexivity|].
  cbn [Str.lstrip]. destruct (Str.isspace c); [|left; reflexivity].
  right. cbn [String.length]. destruct IH as [-> | IH]; lia.
Qed.

Lemma rstrip_length (s : string) :
  String.length (Str.rstrip s) <= String.length s.
Proof.
  induction s as [|c s IH]; [reflexivity|].
  cbn [Str.rstrip]. destruct (Str.rstrip s) as [|d r].
  - destruct (Str.isspace c); cbn [String.length]; lia.
  - cbn [String.length] in *. lia.
Qed.

(** A string that [strip] leaves alone is left alone at both ends. *)
Lemma strip_fixed (s : string) :
  Str.strip s = s -> Str.lstrip s = s /\ Str.rstrip s = s.
Proof.
  unfold Str.strip. intros Hs.
  assert (Hl : Str.lstrip s = s).
  { destruct (lstrip_shorter s) as [Hl | Hl]; [exact Hl|].
    pose proof (rstrip_length (Str.lstrip s)) as Hr. rewrite Hs in Hr. lia. }
  rewrite Hl in Hs. split; assumption.
Qed.

Lemma lstrip_app_fixed (row x : string) :
  row <> "" -> Str.lstrip row = row -> Str.lstrip (row ++ x) = row ++ x.
Proof.
  destruct row as [|c row]; [congruence|]. intros _ Hl.
  cbn [Str.lstrip append] in *. destruct (Str.isspace c); [|reflexivity].
  exfalso. destruct (lstrip_shorter row) as [Heq | Hlt].
  - rewrite Heq in Hl. apply (f_equal String.length) in Hl.
    cbn [String.length] in Hl. lia.
  - rewrite Hl in Hlt. cbn [String.length] in Hlt. lia.
Qed.

Lemma rstrip_app (a b : string) :
  Str.rstrip (a ++ b)
  = match Str.rstrip b with
    | EmptyString => Str.rstrip a
    | String _ _ => a ++ Str.rstrip b
    end.
Proof.
  induction a as [|c a IH].
  - cbn [append Str.rstrip]. destruct (Str.rstrip b); reflexivity.
  - cbn [append Str.rstrip]. rewrite IH.
    destruct (Str.rstrip b) as [|d r]; [reflexivity|].
    destruct a; reflexivity.
Qed.

Lemma rstrip_after_newline (rest : string) :
  Str.rstrip (Str.nl ++ rest) = ""
  \/ exists r, Str.rstrip (Str.nl ++ rest) = Str.nl ++ r.
Proof.
  unfold Str.nl. cbn [append Str.rstrip].
  destruct (Str.rstrip rest) as [|d r]; [left; reflexivity|].
  right. eexists. reflexivity.
Qed.

(** The first field of a split is a string without the separator that is
    followed by nothing or by the separator. *)
Lemma split_first_line (row : string) :
  Str.contains Str.nl row = false ->
  forall cur y, (y = "" \/ exists r, y = Str.nl ++ r) ->
  nth 0 (Str.split_go Str.nl 0 cur (row ++ y)) "" = cur ++ row.
Proof.
  induction row as [|c row IH]; intros Hc cur y Hy.
  - cbn [append]. rewrite append_empty_r.
    destruct Hy as [-> | [r ->]]; [reflexivity|].
    unfold Str.nl. cbn [append Str.split_go prefix].
    destruct (ascii_dec (ascii_of_nat 10) (ascii_of_nat 10)) as [_|Hne];
      [|congruence].
    destruct r; reflexivity.
  - cbn [Str.contains] in Hc. apply orb_false_iff in Hc as [Hp Hc].
    cbn [append Str.split_go].
    assert (Hp' : prefix Str.nl (String c (row ++ y)) = false).
    { unfold Str.nl in *. cbn [prefix] in *.
      destruct (ascii_dec (ascii_of_nat 10) c); [|reflexivity].
      destruct row; discriminate Hp. }
    rewrite Hp'. rewrite (IH Hc _ y Hy), append_assoc. reflexivity.
Qed.

Lemma first_row_of_output (row rest : string) :
  row <> "" -> Str.strip row = row -> Str.contains Str.nl row = false ->
  nth 0 (Str.split Str.nl (Str.strip (row ++ Str.nl ++ rest))) "" = row.
Proof.
  intros Hne Hs Hc. destruct (strip_fixed row Hs) as [Hl Hr].
  unfold Str.strip. rewrite (lstrip_app_fixed row _ Hne Hl), rstrip_app.
  unfold Str.split.
  destruct (rstrip_after_newline rest) as [-> | [r ->]].
  - rewrite Hr. rewrite <- (append_empty_r row) at 1.
    rewrite (split_first_line row Hc "" ""); [reflexivity | left; reflexivity].
  - destruct (Str.nl ++ r) eqn:Ey; [discriminate Ey|]. rewrite <- Ey.
    rewrite (split_first_line row Hc "" (Str.nl ++ r)); [reflexivity|].
    right. eexists. reflexivity.
Qed.

Section FirstRow.
Context `{PyFloat}.

(** X13.  Only the first row of the vendor tool's output is read: when
    the tool exits with code 0 and prints a row (not empty, without white
    space at its ends) followed by a line feed and anything else, for
    instance the rows of further GPUs, the result is that of the row
    alone. *)
Theorem first_gpu_row_decides (env : Env) (row rest : string) :
  nvidia_smi env
  = Returns {| returncode := 0; stdout := row ++ Str.nl ++ rest |} ->
  row <> "" -> Str.strip row = row -> Str.contains Str.nl row = false ->
  nvidia_smi_row {| returncode := 0; stdout := row ++ Str.nl ++ rest |} = row
  /\ (Str.contains ", " row = true ->
      get_gpu_info env
      = ([Call_nvidia_smi],
         Returns (Str.strip (nth 1 (Str.split ", " row) "") ++ Str.degC,
                  Str.strip (nth 0 (Str.split ", " row) "") ++ "%")))
  /\ (Str.contains ", " row = false ->
      nvidia_smi_strategy env = ([Call_nvidia_smi], Returns None)).
Proof.
  intros Hn Hne Hs Hc.
  assert (Hrow : nvidia_smi_row
                   {| returncode := 0; stdout := row ++ Str.nl ++ rest |} = row).
  { unfold nvidia_smi_row. cbn [stdout]. apply first_row_of_output; assumption. }
  pose proof (nvidia_smi_strategy_completed env _ Hn) as Hst.
  unfold nvidia_smi_usable in Hst. rewrite Hrow in Hst. cbn [returncode] in Hst.
  split; [exact Hrow|]. split; intros Hsep; rewrite Hsep in Hst.
  - apply get_gpu_info_primary. exact Hst.
  - exact Hst.
Qed.

End FirstRow.

(* ================================================================== *)
(** * Further properties of the tick, the popup and the loop *)
(* ================================================================== *)

Section MonitorFacts.
Context `{PyFloat}.

(** After its first call a tick makes no second CPU read, and registers
    no timer but the one of 2000 ms. *)
Lemma tick_trace_shape (env : Env) (s : SystemMonitor) :
  exists rest,
    trace_of (update_system_info env) s = Call_cpu_percent :: rest
    /\ Forall (fun c => starts_tick c = false
                       /\ forall ms, c = Call_root_after ms -> ms = 2000) rest.
Proof.
  pose proof (resolver_calls_bounded_aux env) as Hg.
  assert (Hg' : Forall (fun c => starts_tick c = false
                                /\ forall ms, c = Call_root_after ms -> ms = 2000)
                       (fst (get_gpu_info env))).
  { pose proof (get_gpu_info_traces env) as Hin. unfold resolver_traces in Hin.
    cbn [In] in Hin.
    destruct Hin as [<- | [<- | [<- | [<- | [<- | []]]]]];
      repeat constructor; discriminate. }
  clear Hg. destruct s as [r w v mon cp ct gt gu mp hk].
  tick_cases env; cbn [fst] in Hg';
    destruct v, w, mon; cbn; eexists; (split; [reflexivity|]);
    repeat first
      [ apply Forall_nil
      | apply Forall_cons; [split; [reflexivity | intros ms Hms; first [discriminate Hms | injection Hms as <-; reflexivity]]|]
      | apply Forall_app; split
      | exact Hg' ].
Qed.

Lemma update_system_info_cpu_interrupted (env : Env) (s : SystemMonitor) (e : exc) :
  psutil_cpu_percent env = Raises e -> is_Exception e = false ->
  update_system_info env s = ([Call_cpu_percent], s, Raises e).
Proof.
  intros Hc He. unfold update_system_info. rewrite Hc.
  destruct s as [r w v mon cp ct gt gu mp hk].
  act_run. cbv beta iota zeta delta [invoke print]. rewrite He. reflexivity.
Qed.

Lemma update_system_info_memory_interrupted (env : Env) (s : SystemMonitor)
      (c : pyfloat) (e : exc) :
  psutil_cpu_percent env = Returns c ->
  psutil_virtual_memory env = Raises e -> is_Exception e = false ->
  update_system_info env s
  = ([Call_cpu_percent; Call_sensors_temperatures; Call_virtual_memory],
     set_cpu_temp (cpu_temperature_reading env) (set_cpu_percent c s),
     Raises e).
Proof.
  intros Hc Hm He. unfold update_system_info.
  rewrite Hc, Hm, get_cpu_temperature_returns.
  destruct s as [r w v mon cp ct gt gu mp hk].
  act_run. cbv beta iota zeta delta [invoke print]. rewrite He. reflexivity.
Qed.

Lemma update_system_info_gpu_interrupted (env : Env) (s : SystemMonitor)
      (c : pyfloat) (m : svmem) (tg : list call) (e : exc) :
  psutil_cpu_percent env = Returns c ->
  psutil_virtual_memory env = Returns m ->
  get_gpu_info env = (tg, Raises e) -> is_Exception e = false ->
  update_system_info env s
  = (([Call_cpu_percent; Call_sensors_temperatures; Call_virtual_memory] ++ tg)%list,
     set_memory_percent (percent m)
       (set_cpu_temp (cpu_temperature_reading env) (set_cpu_percent c s)),
     Raises e).
Proof.
  intros Hc Hm Hg He. unfold update_system_info.
  rewrite Hc, Hm, Hg, get_cpu_temperature_returns.
  destruct s as [r w v mon cp ct gt gu mp hk].
  act_run. cbv beta iota zeta delta [invoke print]. rewrite He. cbn.
  rewrite ?app_nil_r. reflexivity.
Qed.

(** X6.  A tick that raises (which only an interrupt of the CPU read, of
    the memory read or of the vendor tool's run makes it do) has
    registered no timer: the Tk root is as before, so no later tick
    follows from it, and the popup is not touched. *)
Theorem raising_tick_schedules_nothing (env : Env) (s s' : SystemMonitor)
        (tr : list call) (e : exc) :
  update_system_info env s = (tr, s', Raises e) ->
  is_Exception e = false
  /\ root s' = root s
  /\ (forall ms, ~ In (Call_root_after ms) tr)
  /\ popup_window s' = popup_window s
  /\ (psutil_cpu_percent env = Raises e
      \/ psutil_virtual_memory env = Raises e
      \/ nvidia_smi env = Raises e).
Proof.
  intros Heq.
  destruct (psutil_cpu_percent env) as [c|e1] eqn:Ec.
  - destruct (psutil_virtual_memory env) as [m|e3] eqn:Em.
    + destruct (get_gpu_info env) as [tg [g|e4]] eqn:Eg.
      * rewrite (update_system_info_complete env s c m tg g Ec Em Eg) in Heq.
        discriminate Heq.
      * pose proof (resolver_raises_only_on_interrupt_aux env tg e4 Eg) as Hn.
        assert (He4 : is_Exception e4 = false).
        { destruct (is_Exception e4) eqn:He; [|reflexivity].
          assert (Hx : Exception_only (nvidia_smi env)) by (rewrite Hn; exact He).
          destruct (get_gpu_info_returns env Hx) as (tr' & v & Hv). congruence. }
        rewrite (update_system_info_gpu_interrupted env s c m tg e4 Ec Em Eg He4)
          in Heq.
        injection Heq as <- <- <-.
        split; [exact He4|]. split; [reflexivity|]. split; [|split; [reflexivity|]].
        -- intros ms Hin.
           pose proof (resolver_calls_bounded_aux env) as Hall. rewrite Eg in Hall.
           cbn [fst] in Hall. rewrite Forall_forall in Hall.
           cbn in Hin. destruct Hin as [Hd | [Hd | [Hd | Hin]]];
             try discriminate Hd.
           specialize (Hall _ Hin). discriminate Hall.
        -- right. right. exact Hn.
    + destruct (is_Exception e3) eqn:He.
      * rewrite (update_system_info_memory_failed env s c e3 Ec Em He) in Heq.
        discriminate Heq.
      * rewrite (update_system_info_memory_interrupted env s c e3 Ec Em He) in Heq.
        injection Heq as <- <- <-.
        split; [exact He|]. split; [reflexivity|]. split; [|split; [reflexivity|]].
        -- intros ms Hin. cbn in Hin.
           destruct Hin as [Hd | [Hd | [Hd | []]]]; discriminate Hd.
        -- right. left. reflexivity.
  - destruct (is_Exception e1) eqn:He.
    + rewrite (update_system_info_cpu_failed env s e1 Ec He) in Heq.
      discriminate Heq.
    + rewrite (update_system_info_cpu_interrupted env s e1 Ec He) in Heq.
      injection Heq as <- <- <-.
      split; [exact He|]. split; [reflexivity|]. split; [|split; [reflexivity|]].
      * intros ms Hin. cbn in Hin. destruct Hin as [Hd | []]. discriminate Hd.
      * left. reflexivity.
Qed.

(** X7.  Showing the popup from the hidden state creates it with the
    texts of [create_popup] ("Usage: 0%", "Temp: N/A", no time stamp),
    whatever metrics are stored: the update at the end of [create_popup]
    runs before the flag is set and does nothing.  The stored metrics and
    the timers are not touched.  The next complete tick writes its
    readings and the time to the labels. *)
Theorem shown_popup_starts_blank (env env' : Env) (s : SystemMonitor) :
  visibility_inv s ->
  is_popup_visible s = false ->
  popup_window (state_after (show_popup env) s) = Some blank_popup
  /\ is_popup_visible (state_after (show_popup env) s) = true
  /\ sampler_state (state_after (show_popup env) s) = sampler_state s
  /\ forall c m tg g,
       psutil_cpu_percent env' = Returns c ->
       psutil_virtual_memory env' = Returns m ->
       get_gpu_info env' = (tg, Returns g) ->
       popup_window (state_after (update_system_info env')
                       (state_after (show_popup env) s))
       = Some {| cpu_usage_label := "Usage: " ++ format_f 1 c ++ "%";
                 cpu_temp_label := "Temp: " ++ cpu_temperature_reading env';
                 memory_label := "Usage: " ++ format_f 1 (percent m) ++ "%";
                 gpu_usage_label := "Usage: " ++ snd g;
                 gpu_temp_label := "Temp: " ++ fst g;
                 timestamp_label := "Updated: " ++ now_hms env' |}.
Proof.
  unfold visibility_inv. intros Hi Hv. rewrite Hv in Hi.
  assert (Hw : popup_window s = None)
    by (destruct (popup_window s); [discriminate Hi | reflexivity]).
  assert (Hs : state_after (show_popup env) s
               = set_is_popup_visible true (set_popup_window (Some blank_popup) s)).
  { unfold state_after. rewrite show_popup_state, Hv, Hw. reflexivity. }
  rewrite Hs. repeat split.
  intros c m tg g Hc Hm Hg. unfold state_after.
  rewrite (update_system_info_complete env' _ c m tg g Hc Hm Hg). cbn [fst snd].
  apply (sampled_popup env' c _ m g _ blank_popup); reflexivity.
Qed.

(** X8.  [hide_popup] and [show_popup] are idempotent, and neither
    touches the metrics or the timers.  From a state in which the flag
    agrees with the window, hiding leaves no window and the flag false,
    showing leaves a window and the flag true, hiding after showing from
    the hidden state gives the state back, and on a shown popup the
    toggle does what the close request does. *)
Theorem show_and_hide_compose (env : Env) (s : SystemMonitor) :
  visibility_inv s ->
  state_after hide_popup (state_after hide_popup s) = state_after hide_popup s
  /\ state_after (show_popup env) (state_after (show_popup env) s)
     = state_after (show_popup env) s
  /\ sampler_state (state_after hide_popup s) = sampler_state s
  /\ sampler_state (state_after (show_popup env) s) = sampler_state s
  /\ (is_popup_visible (state_after hide_popup s) = false
      /\ popup_window (state_after hide_popup s) = None)
  /\ (is_popup_visible (state_after (show_popup env) s) = true
      /\ popup_window (state_after (show_popup env) s) <> None)
  /\ (is_popup_visible s = false ->
      state_after hide_popup (state_after (show_popup env) s) = s)
  /\ (is_popup_visible s = true ->
      _toggle_popup_main_thread env s = hide_popup s).
Proof.
  unfold visibility_inv, state_after. intros Hi.
  rewrite toggle_state, !hide_popup_state, !show_popup_state. cbn [fst snd].
  destruct s as [r w v mon cp ct gt gu mp hk]. cbn in Hi.
  destruct v, w; try discriminate Hi; cbn;
    repeat split; try reflexivity; try discriminate.
Qed.

(** ** After [shutdown] *)

Lemma handle_after_quit_display (env : Env) (ev : event) (s : SystemMonitor) :
  quit_requested (root s) = true ->
  display_state (snd (handle env ev s)) = display_state s
  /\ hotkey_hooked (snd (handle env ev s)) = hotkey_hooked s
  /\ (hotkey_hooked s = false -> handle env ev s = ([], s)).
Proof.
  intros Hq. unfold handle. rewrite Hq.
  destruct ev; cbn [fst snd]; try (repeat split; reflexivity).
  destruct (hotkey_hooked s) eqn:Hh.
  - rewrite toggle_popup_state. cbn [fst snd].
    repeat split; [exact Hh | discriminate].
  - repeat split; exact Hh.
Qed.

Lemma mainloop_after_quit_display (evs : list (Env * event)) :
  forall s, quit_requested (root s) = true ->
  display_state (snd (mainloop evs s)) = display_state s
  /\ (hotkey_hooked s = false -> mainloop evs s = ([], s)).
Proof.
  induction evs as [|[env ev] evs IH]; intros s Hq; cbn [mainloop].
  - split; reflexivity.
  - destruct (handle_after_quit env ev s Hq) as (Hq1 & _ & _).
    destruct (handle_after_quit_display env ev s Hq) as (Hd1 & Hh1 & Hn1).
    destruct (handle env ev s) as [tr s1] eqn:Eh. cbn [fst snd] in *.
    destruct (IH s1 Hq1) as (Hd2 & Hn2).
    split.
    + destruct (mainloop evs s1) as [tr' s2]. cbn [fst snd] in *. congruence.
    + intros Hh. specialize (Hn1 Hh). injection Hn1 as -> ->.
      rewrite (Hn2 Hh). reflexivity.
Qed.

(** X9.  [shutdown] closes a popup that is shown and leaves the metrics
    as they are.  Whatever events follow it, the popup state and the
    metrics never change again.  If [keyboard.unhook_all] returns, the
    hotkey is unhooked and later events do nothing at all; if it raises,
    the exception is swallowed, the hotkey stays as it was and the root is
    told to quit all the same. *)
Theorem nothing_shown_after_shutdown (env : Env) (s : SystemMonitor)
        (evs : list (Env * event)) :
  visibility_inv s ->
  popup_window (state_after (shutdown env) s) = None
  /\ is_popup_visible (state_after (shutdown env) s) = false
  /\ (cpu_percent (state_after (shutdown env) s), cpu_temp (state_after (shutdown env) s),
      memory_percent (state_after (shutdown env) s),
      gpu_temp (state_after (shutdown env) s), gpu_usage (state_after (shutdown env) s))
     = (cpu_percent s, cpu_temp s, memory_percent s, gpu_temp s, gpu_usage s)
  /\ display_state (snd (mainloop evs (state_after (shutdown env) s)))
     = display_state (state_after (shutdown env) s)
  /\ (forall u, keyboard_unhook_all env = Returns u ->
                hotkey_hooked (state_after (shutdown env) s) = false
                /\ mainloop evs (state_after (shutdown env) s)
                   = ([], state_after (shutdown env) s))
  /\ (forall e, keyboard_unhook_all env = Raises e ->
                hotkey_hooked (state_after (shutdown env) s) = hotkey_hooked s
                /\ quit_requested (root (state_after (shutdown env) s)) = true).
Proof.
  intros Hi.
  assert (Hq : quit_requested (root (state_after (shutdown env) s)) = true).
  { unfold state_after at 1. rewrite shutdown_state. reflexivity. }
  destruct (mainloop_after_quit_display evs _ Hq) as (Hd & Hn).
  assert (Hst : state_after (shutdown env) s
                = let s1 := state_after hide_popup (set_monitoring false s) in
                  let s2 := match keyboard_unhook_all env with
                            | Returns _ => set_hotkey_hooked false s1
                            | Raises _ => s1
                            end in
                  set_root (tk_quit (root s2)) s2).
  { unfold state_after at 1. rewrite shutdown_state. reflexivity. }
  split; [|split; [|split; [|split; [exact Hd | split]]]].
  - rewrite Hst. unfold state_after. rewrite hide_popup_state.
    unfold visibility_inv in Hi. destruct s as [r w v mon cp ct gt gu mp hk].
    cbn in *. destruct (keyboard_unhook_all env); destruct v, w;
      try discriminate Hi; reflexivity.
  - rewrite Hst. unfold state_after. rewrite hide_popup_state.
    unfold visibility_inv in Hi. destruct s as [r w v mon cp ct gt gu mp hk].
    cbn in *. destruct (keyboard_unhook_all env); destruct v, w;
      try discriminate Hi; reflexivity.
  - rewrite Hst. unfold state_after. rewrite hide_popup_state.
    destruct s as [r w v mon cp ct gt gu mp hk].
    cbn. destruct (keyboard_unhook_all env); destruct v, w; reflexivity.
  - intros u Hu.
    assert (Hh : hotkey_hooked (state_after (shutdown env) s) = false).
    { rewrite Hst, Hu. reflexivity. }
    split; [exact Hh | exact (Hn Hh)].
  - intros e He. split; [|exact Hq].
    rewrite Hst, He. unfold state_after. rewrite hide_popup_state.
    destruct s as [r w v mon cp ct gt gu mp hk]. cbn.
    destruct v, w; reflexivity.
Qed.

(** ** The constructor, piece by piece *)

Lemma init_decompose (env : Env) (r : TkRoot) :
  exists pre s0 post,
    fst (fst (__init__ env r))
    = (pre ++ trace_of (update_system_info env) s0 ++ post)%list
    /\ snd (fst (__init__ env r)) = state_after (update_system_info env) s0
    /\ ((s0 = set_hotkey_hooked true (new_monitor r)
         /\ exists u, keyboard_add_hotkey env = Returns u)
        \/ (s0 = new_monitor r /\ exists e, keyboard_add_hotkey env = Raises e))
    /\ Forall (fun c => c = Call_add_hotkey
                        \/ exists e, c = Call_print (Hotkey_error e)) pre
    /\ (post = [] \/ post = [Call_print Startup_banner]).
Proof.
  unfold __init__, setup_hotkey_monitoring. act_run. io_run.
  destruct (keyboard_add_hotkey env) as [u|e] eqn:Ek; cbn -[update_system_info].
  - exists [Call_add_hotkey], (set_hotkey_hooked true (new_monitor r)).
    unfold trace_of, state_after.
    destruct (update_system_info env (set_hotkey_hooked true (new_monitor r)))
      as [[tr s1] [u1|e1]]; cbn [fst snd].
    + exists [Call_print Startup_banner]. repeat split; eauto.
    + exists []. rewrite app_nil_r. repeat split; eauto.
  - destruct (is_Exception e); cbn -[update_system_info].
    + exists [Call_add_hotkey; Call_print (Hotkey_error e)], (new_monitor r).
      unfold trace_of, state_after.
      destruct (update_system_info env (new_monitor r))
        as [[tr s1] [u1|e1]]; cbn [fst snd].
      * exists [Call_print Startup_banner]. repeat split; eauto 6.
      * exists []. rewrite app_nil_r. repeat split; eauto 6.
    + exists [Call_add_hotkey], (new_monitor r).
      unfold trace_of, state_after.
      destruct (update_system_info env (new_monitor r))
        as [[tr s1] [u1|e1]]; cbn [fst snd].
      * exists [Call_print Startup_banner]. repeat split; eauto 6.
      * exists []. rewrite app_nil_r. repeat split; eauto 6.
Qed.

(** ** A run without the hotkey *)

Lemma enqueue_Forall (P : nat * callback -> Prop) (t : nat * callback)
      (q : list (nat * callback)) :
  P t -> Forall P q -> Forall P (enqueue t q).
Proof.
  intros Ht. induction 1 as [|x q Hx Hq IH]; cbn [enqueue].
  - repeat constructor. exact Ht.
  - destruct (fst t <? fst x); repeat constructor; assumption.
Qed.

Lemma tick_effects (env : Env) (s : SystemMonitor) :
  hotkey_hooked (state_after (update_system_info env) s) = hotkey_hooked s
  /\ (root (state_after (update_system_info env) s) = root s
      \/ root (state_after (update_system_info env) s)
         = tk_after 2000 cb_update_system_info (root s)).
Proof.
  destruct s as [r w v mon cp ct gt gu mp hk].
  tick_cases env; destruct v, w, mon; cbn;
    (split; [reflexivity | first [left; reflexivity | right; reflexivity]]).
Qed.

Lemma never_toggled_tick (env : Env) (s : SystemMonitor) :
  never_toggled s -> never_toggled (state_after (update_system_info env) s).
Proof.
  intros (Hh & Hq & Hv & Hw).
  destruct (tick_effects env s) as (Hh' & Hr).
  destruct (tick_keeps_visibility env s) as (Hv' & Hw').
  unfold never_toggled, only_ticks_pending in *.
  split; [congruence|]. split; [|split; [congruence|]].
  - destruct Hr as [-> | ->]; [exact Hq|].
    cbn [tk_after after_queue]. apply enqueue_Forall; [reflexivity | exact Hq].
  - rewrite Hw in Hw'.
    destruct (popup_window (state_after (update_system_info env) s));
      [discriminate Hw' | reflexivity].
Qed.

Lemma never_toggled_handle (env : Env) (ev : event) (s : SystemMonitor) :
  never_toggled s -> never_toggled (snd (handle env ev s)).
Proof.
  intros Hs. pose proof Hs as (Hh & Hq & Hv & Hw). unfold handle.
  destruct ev.
  - destruct (quit_requested (root s)); [exact Hs|].
    unfold dispatch_timer. unfold only_ticks_pending in Hq.
    destruct (after_queue (root s)) as [|[due cb] q] eqn:Eq; [exact Hs|].
    inversion Hq as [|x q' Hx Hq']; subst.
    destruct cb; [|discriminate Hx]. cbn [run_callback].
    set (s1 := set_root _ s).
    assert (H1 : never_toggled s1).
    { unfold never_toggled, only_ticks_pending. repeat split; assumption. }
    pose proof (never_toggled_tick env s1 H1) as H2. unfold state_after in H2.
    destruct (update_system_info env s1) as [[tr s2] [u|e]]; cbn [fst snd] in *;
      [exact H2|].
    destruct e; exact H2.
  - rewrite Hh. exact Hs.
  - destruct (quit_requested (root s)); [exact Hs|].
    rewrite hide_popup_state, Hv. exact Hs.
  - destruct (quit_requested (root s)); [exact Hs|].
    rewrite shutdown_state. cbn [fst snd]. unfold state_after.
    rewrite hide_popup_state.
    unfold never_toggled, only_ticks_pending in *.
    destruct s as [r w v mon cp ct gt gu mp hk]. cbn in *. subst.
    destruct (keyboard_unhook_all env); cbn; repeat split; assumption.
  - destruct (quit_requested (root s)); [exact Hs|].
    rewrite shutdown_state. cbn [fst snd]. unfold state_after.
    rewrite hide_popup_state.
    unfold never_toggled, only_ticks_pending in *.
    destruct s as [r w v mon cp ct gt gu mp hk]. cbn in *. subst.
    destruct (keyboard_unhook_all env); cbn; repeat split; assumption.
Qed.

Lemma never_toggled_mainloop (evs : list (Env * event)) :
  forall s, never_toggled s -> never_toggled (snd (mainloop evs s)).
Proof.
  induction evs as [|[env ev] evs IH]; intros s Hs; cbn [mainloop].
  - exact Hs.
  - pose proof (never_toggled_handle env ev s Hs) as Hh.
    destruct (handle env ev s) as [tr s1].
    specialize (IH s1 Hh). destruct (mainloop evs s1) as [tr' s2]. exact IH.
Qed.

(** X10.  If the registration of the hotkey raises, the constructor goes
    on all the same: in every run of [main] the hotkey stays unhooked, no
    popup is ever created or shown, whatever keys are pressed, and (in a
    run without interrupts) one sampling timer stays pending while
    [monitoring] holds. *)
Theorem failed_hotkey_registration_never_shows (env0 : Env)
        (evs : list (Env * event)) (e : exc) :
  keyboard_add_hotkey env0 = Raises e ->
  hotkey_hooked (snd (main env0 evs)) = false
  /\ is_popup_visible (snd (main env0 evs)) = false
  /\ popup_window (snd (main env0 evs)) = None
  /\ (failures_are_Exceptions env0 ->
      Forall (fun p => failures_are_Exceptions (fst p)) evs ->
      sampler_alive (snd (main env0 evs))).
Proof.
  intros Hk.
  assert (Hn : never_toggled (snd (main env0 evs))).
  { unfold main.
    destruct (init_decompose env0 fresh_root)
      as (pre & s0 & post & _ & Hst & Hs0 & _).
    assert (H0 : s0 = new_monitor fresh_root).
    { destruct Hs0 as [[_ [u Hu]] | [-> _]]; [congruence | reflexivity]. }
    assert (Hi : never_toggled (snd (fst (__init__ env0 fresh_root)))).
    { rewrite Hst, H0. apply never_toggled_tick.
      unfold never_toggled, only_ticks_pending. repeat split. constructor. }
    destruct (__init__ env0 fresh_root) as [[tr s] [u|e1]]; cbn [fst snd] in Hi.
    - pose proof (never_toggled_mainloop evs s Hi) as Hl.
      destruct (mainloop evs s) as [tr' s']. exact Hl.
    - exact Hi. }
  destruct Hn as (Hh & _ & Hv & Hw).
  repeat split; try assumption.
  apply sampler_alive_in_main; assumption.
Qed.

(** ** Timers and passes along a run *)

Lemma tick_trace_facts (env : Env) (s : SystemMonitor) :
  Forall sampling_timer_only (trace_of (update_system_info env) s)
  /\ passes_started (trace_of (update_system_info env) s) = 1.
Proof.
  destruct (tick_trace_shape env s) as (rest & -> & Hrest). split.
  - constructor; [intros ms Hms; discriminate Hms|].
    eapply Forall_impl; [|exact Hrest]. intros c [_ Hc]. exact Hc.
  - unfold passes_started. cbn [filter starts_tick List.length]. f_equal.
    induction Hrest as [|c rest [Hc _] _ IH]; [reflexivity|].
    cbn [filter]. rewrite Hc. exact IH.
Qed.

Lemma dispatch_trace_facts (env : Env) (s : SystemMonitor) :
  Forall sampling_timer_only (fst (dispatch_timer env s))
  /\ passes_started (fst (dispatch_timer env s)) <= 1.
Proof.
  unfold dispatch_timer.
  destruct (after_queue (root s)) as [|[due cb] q]; [split; [constructor | cbn; lia]|].
  set (s1 := set_root _ s).
  assert (Hcb : Forall sampling_timer_only (trace_of (run_callback cb env) s1)
                /\ passes_started (trace_of (run_callback cb env) s1) <= 1).
  { destruct cb; cbn [run_callback].
    - destruct (tick_trace_facts env s1) as [Ha Hb]. split; [exact Ha | lia].
    - unfold trace_of. destruct (toggle_keeps_sampler env s1) as (s2 & -> & _).
      split; [constructor | cbn; lia]. }
  unfold trace_of in Hcb. destruct Hcb as [Ha Hb].
  destruct (run_callback cb env s1) as [[tr s2] [u|e]]; cbn [fst snd] in *;
    [split; assumption|].
  assert (Hp : Forall sampling_timer_only (tr ++ [Call_print (Callback_exception e)])
               /\ passes_started (tr ++ [Call_print (Callback_exception e)]) <= 1).
  { split.
    - apply Forall_app. split; [exact Ha|]. constructor; [|constructor].
      intros ms Hms. discriminate Hms.
    - unfold passes_started in *. rewrite filter_app, length_app. cbn. lia. }
  destruct e; first [exact Hp | split; assumption].
Qed.

Lemma on_registered (tr : list call) :
  Forall sampling_timer_only tr -> Forall registered_timer (on MainThread tr).
Proof.
  induction 1 as [|c tr Hc _ IH]; constructor; [|exact IH].
  intros ms Hms. left. split; [reflexivity | exact (Hc ms Hms)].
Qed.

Lemma on_init_registered (tr : list call) :
  Forall sampling_timer_only tr -> Forall registered_timer (on_init tr).
Proof.
  induction 1 as [|c tr Hc _ IH]; constructor; [|exact IH].
  intros ms Hms. cbn [fst snd] in *. subst c. left.
  split; [reflexivity | exact (Hc ms eq_refl)].
Qed.

Lemma ticks_run_on (t : thread) (tr : list call) :
  ticks_run (on t tr) = passes_started tr.
Proof.
  unfold ticks_run, passes_started, on.
  induction tr as [|c tr IH]; [reflexivity|].
  cbn [map filter snd]. destruct (starts_tick c); cbn [List.length]; rewrite IH;
    reflexivity.
Qed.

Lemma ticks_run_on_init (tr : list call) :
  ticks_run (on_init tr) = passes_started tr.
Proof.
  unfold ticks_run, passes_started, on_init.
  induction tr as [|c tr IH]; [reflexivity|].
  cbn [map filter snd]. destruct (starts_tick c); cbn [List.length]; rewrite IH;
    reflexivity.
Qed.

Lemma handle_trace_facts (env : Env) (ev : event) (s : SystemMonitor) :
  Forall registered_timer (fst (handle env ev s))
  /\ ticks_run (fst (handle env ev s)) <= (if is_timer_event ev then 1 else 0).
Proof.
  unfold handle.
  destruct ev; cbn [is_timer_event].
  - destruct (quit_requested (root s)); [split; [constructor | cbn; lia]|].
    destruct (dispatch_trace_facts env s) as [Ha Hb].
    destruct (dispatch_timer env s) as [tr s']. cbn [fst] in *.
    split; [apply on_registered, Ha | rewrite ticks_run_on; exact Hb].
  - destruct (hotkey_hooked s); [|split; [constructor | cbn; lia]].
    rewrite toggle_popup_state. cbn [fst on map]. split; [|cbn; lia].
    constructor; [|constructor]. intros ms Hms. cbn in Hms.
    injection Hms as <-. right. split; reflexivity.
  - destruct (quit_requested (root s)); [split; [constructor | cbn; lia]|].
    rewrite hide_popup_state. split; [constructor | cbn; lia].
  - destruct (quit_requested (root s)); [split; [constructor | cbn; lia]|].
    rewrite shutdown_state. cbn [fst on map]. split; [|cbn; lia].
    constructor; [|constructor]. intros ms Hms. discriminate Hms.
  - destruct (quit_requested (root s)); [split; [constructor | cbn; lia]|].
    rewrite shutdown_state. cbn [fst on map]. split; [|cbn; lia].
    constructor; [|constructor]. intros ms Hms. discriminate Hms.
Qed.

Lemma mainloop_trace_facts (evs : list (Env * event)) :
  forall s,
    Forall registered_timer (fst (mainloop evs s))
    /\ ticks_run (fst (mainloop evs s)) <= timer_events evs.
Proof.
  induction evs as [|[env ev] evs IH]; intros s; cbn [mainloop].
  - split; [constructor | cbn; lia].
  - destruct (handle_trace_facts env ev s) as [Ha Hb].
    destruct (handle env ev s) as [tr s1]. cbn [fst] in *.
    destruct (IH s1) as [Ha' Hb'].
    destruct (mainloop evs s1) as [tr' s2]. cbn [fst] in *.
    split; [apply Forall_app; split; assumption|].
    rewrite ticks_run_app. unfold timer_events in *. cbn [filter snd].
    destruct (is_timer_event ev); cbn [List.length]; lia.
Qed.

Lemma init_trace_facts (env : Env) (r : TkRoot) :
  Forall sampling_timer_only (fst (fst (__init__ env r)))
  /\ passes_started (fst (fst (__init__ env r))) = 1.
Proof.
  destruct (init_decompose env r) as (pre & s0 & post & -> & _ & _ & Hpre & Hpost).
  destruct (tick_trace_facts env s0) as [Ha Hb].
  assert (Hpre' : Forall sampling_timer_only pre /\ passes_started pre = 0).
  { split.
    - eapply Forall_impl; [|exact Hpre].
      intros c [-> | [e ->]] ms Hms; discriminate Hms.
    - unfold passes_started. induction Hpre as [|c pre Hc _ IH]; [reflexivity|].
      cbn [filter]. destruct Hc as [-> | [e ->]]; exact IH. }
  assert (Hpost' : Forall sampling_timer_only post /\ passes_started post = 0).
  { destruct Hpost as [-> | ->]; split; try reflexivity; repeat constructor.
    intros ms Hms. discriminate Hms. }
  destruct Hpre' as [Hp1 Hp2]. destruct Hpost' as [Hq1 Hq2]. split.
  - repeat (apply Forall_app; split); assumption.
  - unfold passes_started in *. rewrite !filter_app, !length_app. lia.
Qed.

(** X11.  The only timers a run of [main] ever registers are the sampling
    timer of 2000 ms, registered by the main thread, and the toggle of
    0 ms, posted by the hotkey thread. *)
Theorem only_two_timers (env0 : Env) (evs : list (Env * event)) :
  Forall registered_timer (fst (main env0 evs)).
Proof.
  unfold main. destruct (init_trace_facts env0 fresh_root) as [Hi _].
  destruct (__init__ env0 fresh_root) as [[tr s] [u|e]]; cbn [fst] in Hi.
  - destruct (mainloop_trace_facts evs s) as [Hl _].
    destruct (mainloop evs s) as [tr' s']. cbn [fst] in *.
    apply Forall_app. split; [apply on_init_registered, Hi | exact Hl].
  - apply on_init_registered, Hi.
Qed.

(** X12.  A sampling pass starts only in the constructor and when the
    loop serves a timer: a run starts at most one pass more than it has
    timer events, so that key presses, close requests and interrupts
    never start one, and no timer starts two. *)
Theorem passes_bounded_by_timers (env0 : Env) (evs : list (Env * event)) :
  1 <= ticks_run (fst (main env0 evs)) <= 1 + timer_events evs.
Proof.
  unfold main. destruct (init_trace_facts env0 fresh_root) as [_ Hi].
  destruct (__init__ env0 fresh_root) as [[tr s] [u|e]]; cbn [fst] in Hi.
  - destruct (mainloop_trace_facts evs s) as [_ Hl].
    destruct (mainloop evs s) as [tr' s']. cbn [fst] in *.
    rewrite ticks_run_app, ticks_run_on_init. lia.
  - cbn [fst]. rewrite ticks_run_on_init. lia.
Qed.

(** ** The popup while hidden, and the first key press *)

(** X14.  While the flag is false or there is no window, neither
    [update_popup_content] nor a whole tick touches the popup, in every
    case of the environment: no window is created and none is
    configured. *)
Theorem hidden_popup_is_left_alone (env : Env) (s : SystemMonitor) :
  is_popup_visible s = false \/ popup_window s = None ->
  update_popup_content env s = ([], s, Returns tt)
  /\ popup_window (state_after (update_system_info env) s) = popup_window s
  /\ is_popup_visible (state_after (update_system_info env) s)
     = is_popup_visible s.
Proof.
  intros Hh. destruct s as [r w v mon cp ct gt gu mp hk]. cbn in Hh.
  split.
  - unfold update_popup_content. act_run. cbn.
    destruct Hh as [-> | ->]; [destruct w|]; reflexivity.
  - assert (Hvw : v && truthy_opt w = false).
    { destruct Hh as [-> | ->]; [reflexivity | apply andb_false_r]. }
    tick_cases env; destruct v, w, mon; try discriminate Hvw; cbn;
      split; reflexivity.
Qed.

(** X15.  Under the invariant, serving a toggle flips the flag and keeps
    the invariant.  After a start in which the hotkey was registered and
    the first pass met no interrupt, the first key press posts a toggle
    that is served before the sampling timer: the popup is shown, with
    the texts of [create_popup], and the sampling timer is still
    pending. *)
Theorem first_key_press_shows_popup (env0 env1 env2 : Env) (s : SystemMonitor) :
  visibility_inv s ->
  (is_popup_visible (state_after (_toggle_popup_main_thread env1) s)
   = negb (is_popup_visible s)
   /\ visibility_inv (state_after (_toggle_popup_main_thread env1) s))
  /\ (forall u, keyboard_add_hotkey env0 = Returns u ->
       failures_are_Exceptions env0 ->
       is_popup_visible
         (snd (main env0 [(env1, HotkeyPressed); (env2, TimerDue)])) = true
       /\ popup_window
            (snd (main env0 [(env1, HotkeyPressed); (env2, TimerDue)]))
          = Some blank_popup
       /\ after_queue
            (root (snd (main env0 [(env1, HotkeyPressed); (env2, TimerDue)])))
          = [(2000, cb_update_system_info)]).
Proof.
  intros Hi. split.
  - split; [|apply inv_toggle, Hi].
    unfold state_after. rewrite toggle_state, hide_popup_state, show_popup_state.
    unfold visibility_inv in Hi. destruct s as [r w v mon cp ct gt gu mp hk].
    cbn in *. destruct v, w; try discriminate Hi; reflexivity.
  - intros u Hk He. unfold main.
    destruct (init_decompose env0 fresh_root)
      as (pre & s0 & post & _ & Hst & Hs0 & _).
    assert (H0 : s0 = set_hotkey_hooked true (new_monitor fresh_root)).
    { destruct Hs0 as [[-> _] | [_ [e Hk']]]; [reflexivity | congruence]. }
    destruct (tick_schedules env0 s0 He) as (tr1 & s1 & Ht & Hm & Hr).
    destruct (tick_effects env0 s0) as (Hh & _).
    destruct (tick_keeps_visibility env0 s0) as (Hv & Hw).
    unfold state_after in Hst, Hh, Hv, Hw. rewrite Ht in Hst, Hh, Hv, Hw.
    cbn [fst snd] in Hst, Hh, Hv, Hw. subst s0. cbn in Hm, Hr, Hh, Hv, Hw.
    assert (Hret : exists tr, __init__ env0 fresh_root = (tr, s1, Returns tt)).
    { unfold __init__, setup_hotkey_monitoring. act_run. io_run. rewrite Hk.
      cbn -[update_system_info]. rewrite Ht. eauto. }
    destruct Hret as [tr ->].
    assert (Hw1 : popup_window s1 = None)
      by (destruct (popup_window s1); [discriminate Hw | reflexivity]).
    destruct s1 as [r1 w1 v1 mon1 cp1 ct1 gt1 gu1 mp1 hk1].
    cbn in Hm, Hr, Hh, Hv, Hw1. subst.
    cbn [mainloop handle hotkey_hooked]. rewrite toggle_popup_state.
    repeat split; reflexivity.
Qed.

End MonitorFacts.

Section SensorLoopFacts.
Context `{PyFloat}.

Lemma sensor_step_other (acc : string * string) (sensor : Sensor) :
  gpu_named sensor = false -> sensor_step acc sensor = acc.
Proof.
  unfold gpu_named, sensor_step. intros ->. destruct acc; reflexivity.
Qed.

(** X16.  Channels whose name does not contain "gpu" (in any case) never
    influence what the sensor service yields: the loop gives the same
    pair on the list with them removed, and ("N/A", "N/A") when no channel
    is named after the GPU. *)
Theorem other_channels_are_ignored (sensors : list Sensor) :
  sensor_loop sensors = sensor_loop (filter gpu_named sensors)
  /\ (Forall (fun sensor => gpu_named sensor = false) sensors ->
      sensor_loop sensors = ("N/A", "N/A")).
Proof.
  assert (Hgen : forall acc,
             fold_left sensor_step sensors acc
             = fold_left sensor_step (filter gpu_named sensors) acc).
  { induction sensors as [|sensor sensors IH]; intros acc; [reflexivity|].
    cbn [fold_left filter]. destruct (gpu_named sensor) eqn:Hg.
    - cbn [fold_left]. apply IH.
    - rewrite (sensor_step_other acc sensor Hg). apply IH. }
  split; [apply Hgen|].
  intros Hall. unfold sensor_loop. rewrite Hgen.
  replace (filter gpu_named sensors) with (@nil Sensor); [reflexivity|].
  clear Hgen. induction Hall as [|sensor sensors Hs _ IH]; [reflexivity|].
  cbn [filter]. rewrite Hs. exact IH.
Qed.

End SensorLoopFacts.

(* ================================================================== *)
(** * The properties on concrete inputs *)
(* ================================================================== *)

Import IntReadings.

Lemma primary_tool_reading_stops_chain_witness :
  nvidia_smi_row {| returncode := 0; stdout := "45, 62" ++ Str.nl |} = "45, 62"
  /\ get_gpu_info env_tool_45_62
     = ([Call_nvidia_smi], Returns ("62" ++ Str.degC, "45%")).
Proof.
  split; [reflexivity|].
  exact (proj1 (primary_tool_reading_stops_chain env_tool_45_62
                  {| returncode := 0; stdout := "45, 62" ++ Str.nl |}
                  eq_refl eq_refl eq_refl)).
Defined.

(** C2, on the code.  The vendor tool is absent, the sensor service
    connects and lists no GPU channel, and the performance counter would
    have reported "37.0%": [get_gpu_info] returns ("N/A", "N/A") after the
    query of the sensor service, and the performance counter is not
    invoked. *)
Theorem connected_service_without_gpu_channel_skips_counter :
  get_gpu_info env_service_without_gpu
  = ([Call_nvidia_smi; Call_import_wmi; Call_wmi_WMI; Call_wmi_Sensor],
     Returns ("N/A", "N/A"))
  /\ sensor_loop cpu_channels = ("N/A", "N/A")
  /\ powershell_strategy env_service_without_gpu
     = ([Call_powershell_counter], Returns (Some ("N/A", "37.0%")))
  /\ ~ In Call_powershell_counter (fst (get_gpu_info env_service_without_gpu)).
Proof.
  repeat split; try reflexivity.
  cbn. intros [Hc | [Hc | [Hc | [Hc | []]]]]; discriminate Hc.
Qed.

(** C3 fails as stated: the tool exits with code 0 and prints the row
    "[N/A], [N/A]", no field of which is a number; the chain stops at the
    tool all the same and the two texts are returned with their suffixes. *)
Lemma unparseable_row_stops_chain :
  get_gpu_info env_tool_unsupported
  = ([Call_nvidia_smi], Returns ("[N/A]" ++ Str.degC, "[N/A]%"))
  /\ nvidia_smi env_tool_unsupported
     = Returns {| returncode := 0; stdout := "[N/A], [N/A]" ++ Str.nl |}
  /\ Spec.primary_tool_success
       {| returncode := 0; stdout := "[N/A], [N/A]" ++ Str.nl |} = false
  /\ Spec.parseable_number "[N/A]" = false.
Proof. repeat split; reflexivity. Qed.

Lemma primary_tool_success_condition_witness :
  nvidia_smi_usable {| returncode := 0; stdout := "45, 62" ++ Str.nl |} = true
  /\ get_gpu_info env_tool_45_62
     = ([Call_nvidia_smi], Returns ("62" ++ Str.degC, "45%")).
Proof.
  split; [reflexivity|].
  exact (proj1 (primary_tool_success_condition env_tool_45_62)
               {| returncode := 0; stdout := "45, 62" ++ Str.nl |}
               eq_refl eq_refl).
Defined.

(** C4 fails as stated: with two GPU temperature channels (50, then 70)
    and two GPU load channels (10, then 30), the first matching channels
    give "50°C" and "10%", and the code returns "70°C" and "30%". *)
Lemma later_gpu_channel_overrides_first :
  get_gpu_info env_service_with_gpu
  = ([Call_nvidia_smi; Call_import_wmi; Call_wmi_WMI; Call_wmi_Sensor],
     Returns ("70" ++ Str.degC, "30%"))
  /\ channel_temperature (find gpu_temperature_channel gpu_channels)
     = "50" ++ Str.degC
  /\ channel_load (find gpu_load_channel gpu_channels) = "10%"
  /\ snd (get_gpu_info env_service_with_gpu)
     <> Returns (channel_temperature (find gpu_temperature_channel gpu_channels),
                 channel_load (find gpu_load_channel gpu_channels)).
Proof.
  repeat split; try reflexivity.
  vm_compute. intros Heq. discriminate Heq.
Qed.

Lemma last_gpu_channel_wins_witness :
  primary_tool_fails env_service_with_gpu
  /\ get_gpu_info env_service_with_gpu
     = ([Call_nvidia_smi; Call_import_wmi; Call_wmi_WMI; Call_wmi_Sensor],
        Returns ("70" ++ Str.degC, "30%")).
Proof.
  split; [reflexivity|].
  exact (last_gpu_channel_wins env_service_with_gpu gpu_channels
           eq_refl eq_refl eq_refl eq_refl).
Defined.

Lemma resolver_never_raises_witness :
  primary_tool_fails bare_env
  /\ sensor_service_fails bare_env
  /\ performance_counter_fails bare_env
  /\ exists tr, get_gpu_info bare_env = (tr, Returns ("N/A", "N/A")).
Proof.
  assert (H2 : sensor_service_fails bare_env)
    by (left; exists ImportError; reflexivity).
  split; [reflexivity|]. split; [exact H2|]. split; [exact I|].
  exact (proj1 (proj2 (resolver_never_raises bare_env eq_refl)) eq_refl H2 I).
Defined.

(** C6 fails as stated: the CPU-utilization read raises, the memory read
    would return 40 and the vendor tool would report "45%" and "62°C"; the
    tick reads neither, the stored memory and GPU values stay as they
    were, and only the next tick is scheduled. *)
Lemma failed_cpu_read_skips_other_sources :
  update_system_info env_cpu_read_fails (new_monitor fresh_root)
  = ([Call_cpu_percent; Call_print (Monitoring_error OSError); Call_root_after 2000],
     schedule_next (new_monitor fresh_root), Returns tt)
  /\ psutil_virtual_memory env_cpu_read_fails = Returns {| percent := reading 40 |}
  /\ memory_percent (state_after (update_system_info env_cpu_read_fails)
                       (new_monitor fresh_root)) = reading 0
  /\ get_gpu_info env_cpu_read_fails
     = ([Call_nvidia_smi], Returns ("62" ++ Str.degC, "45%"))
  /\ gpu_usage (state_after (update_system_info env_cpu_read_fails)
                  (new_monitor fresh_root)) = "N/A"
  /\ gpu_temp (state_after (update_system_info env_cpu_read_fails)
                 (new_monitor fresh_root)) = "N/A".
Proof. repeat split; reflexivity. Qed.

Lemma tick_publishes_what_was_read_witness :
  Exception_only (nvidia_smi env_tool_45_62)
  /\ exists tg g,
       get_gpu_info env_tool_45_62 = (tg, Returns g)
       /\ state_after (update_system_info env_tool_45_62) (new_monitor fresh_root)
          = sampled env_tool_45_62 (reading 12) "N/A" {| percent := reading 40 |} g
              (new_monitor fresh_root).
Proof.
  split; [exact I|].
  destruct (proj1 (tick_publishes_what_was_read env_tool_45_62
                     (new_monitor fresh_root) I)
                  (reading 12) {| percent := reading 40 |} eq_refl eq_refl)
    as (tg & g & Hg & Ht & _).
  exists tg, g. split; [exact Hg|].
  unfold state_after. rewrite Ht. reflexivity.
Defined.

Lemma toggle_twice_restores_visibility_witness :
  visibility_inv (new_monitor fresh_root)
  /\ state_after (_toggle_popup_main_thread bare_env)
       (state_after (_toggle_popup_main_thread bare_env) (new_monitor fresh_root))
     = new_monitor fresh_root.
Proof.
  split; [reflexivity|].
  exact (proj1 (proj2 (toggle_twice_restores_visibility bare_env bare_env
                         (new_monitor fresh_root)))
               eq_refl eq_refl).
Defined.

(** C9 fails as stated: the first timer the loop serves is the sampling
    pass, and its calls, the run of the vendor tool among them, are made
    by the loop's own thread. *)
Lemma sampling_pass_runs_in_the_loop :
  fst (mainloop [(env_tool_45_62, TimerDue)] (snd (main bare_env [])))
  = on MainThread
      [Call_cpu_percent; Call_sensors_temperatures; Call_virtual_memory;
       Call_nvidia_smi; Call_root_after 2000]
  /\ In (MainThread, Call_nvidia_smi)
        (fst (main bare_env [(env_tool_45_62, TimerDue)])).
Proof.
  split; [reflexivity|].
  vm_compute; tauto.
Qed.

Lemma sampling_runs_on_the_ui_thread_witness :
  In (MainThread, Call_nvidia_smi) (fst (main bare_env [(bare_env, TimerDue)]))
  /\ MainThread = MainThread.
Proof.
  assert (Hin : In (MainThread, Call_nvidia_smi)
                   (fst (main bare_env [(bare_env, TimerDue)])))
    by (vm_compute; tauto).
  split; [exact Hin|].
  exact (proj2 (sampling_runs_on_the_ui_thread bare_env [(bare_env, TimerDue)])
               MainThread Call_nvidia_smi Hin eq_refl).
Defined.

Lemma visibility_invariant_witness :
  visibility_inv (new_monitor fresh_root)
  /\ visibility_inv
       (state_after (_toggle_popup_main_thread bare_env) (new_monitor fresh_root)).
Proof.
  split; [reflexivity|].
  exact (proj1 (proj2 (proj2 (visibility_invariant bare_env
                                (new_monitor fresh_root) eq_refl)))).
Defined.

Import MoreReadings.

Lemma counter_gives_utilization_only_witness :
  primary_tool_fails env_counter_only
  /\ sensor_service_fails env_counter_only
  /\ exists t2,
       get_gpu_info env_counter_only
       = ((Call_nvidia_smi :: t2 ++ [Call_powershell_counter])%list,
          Returns ("N/A", "37.0%")).
Proof.
  assert (H2 : sensor_service_fails env_counter_only)
    by (left; exists ImportError; reflexivity).
  split; [reflexivity|]. split; [exact H2|].
  destruct (counter_gives_utilization_only env_counter_only
              {| returncode := 0; stdout := "37" ++ Str.nl |}
              eq_refl H2 eq_refl) as (t2 & _ & Heq).
  exists t2. exact Heq.
Defined.

Lemma raising_tick_schedules_nothing_witness :
  snd (update_system_info env_tool_interrupted (new_monitor fresh_root))
  = Raises KeyboardInterrupt
  /\ root (state_after (update_system_info env_tool_interrupted)
             (new_monitor fresh_root)) = fresh_root.
Proof.
  split; [reflexivity|].
  exact (proj1 (proj2 (raising_tick_schedules_nothing env_tool_interrupted
                         (new_monitor fresh_root)
                         (state_after (update_system_info env_tool_interrupted)
                            (new_monitor fresh_root))
                         (trace_of (update_system_info env_tool_interrupted)
                            (new_monitor fresh_root))
                         KeyboardInterrupt eq_refl))).
Defined.

Lemma shown_popup_starts_blank_witness :
  visibility_inv (new_monitor fresh_root)
  /\ popup_window (state_after (show_popup bare_env) (new_monitor fresh_root))
     = Some blank_popup.
Proof.
  split; [reflexivity|].
  exact (proj1 (shown_popup_starts_blank bare_env bare_env
                  (new_monitor fresh_root) eq_refl eq_refl)).
Defined.

Lemma show_and_hide_compose_witness :
  visibility_inv shown_monitor
  /\ state_after hide_popup (state_after hide_popup shown_monitor)
     = state_after hide_popup shown_monitor.
Proof.
  split; [reflexivity|].
  exact (proj1 (show_and_hide_compose bare_env shown_monitor eq_refl)).
Defined.

Lemma nothing_shown_after_shutdown_witness :
  visibility_inv shown_monitor
  /\ is_popup_visible shown_monitor = true
  /\ popup_window (state_after (shutdown bare_env) shown_monitor) = None.
Proof.
  split; [reflexivity|]. split; [reflexivity|].
  exact (proj1 (nothing_shown_after_shutdown bare_env shown_monitor
                  [(bare_env, HotkeyPressed); (bare_env, TimerDue)] eq_refl)).
Defined.

Lemma failed_hotkey_registration_never_shows_witness :
  keyboard_add_hotkey env_no_hotkey = Raises PermissionError
  /\ is_popup_visible
       (snd (main env_no_hotkey
               [(env_tool_45_62, HotkeyPressed); (env_tool_45_62, TimerDue)]))
     = false.
Proof.
  split; [reflexivity|].
  exact (proj1 (proj2 (failed_hotkey_registration_never_shows env_no_hotkey
                         [(env_tool_45_62, HotkeyPressed); (env_tool_45_62, TimerDue)]
                         PermissionError eq_refl))).
Defined.

Lemma first_gpu_row_decides_witness :
  Str.strip "45, 62" = "45, 62"
  /\ get_gpu_info env_two_gpus
     = ([Call_nvidia_smi], Returns ("62" ++ Str.degC, "45%")).
Proof.
  split; [reflexivity|].
  assert (Hne : "45, 62" <> "") by discriminate.
  exact (proj1 (proj2 (first_gpu_row_decides env_two_gpus "45, 62"
                         ("30, 50" ++ Str.nl) eq_refl Hne eq_refl eq_refl))
               eq_refl).
Defined.

Lemma hidden_popup_is_left_alone_witness :
  is_popup_visible (new_monitor fresh_root) = false
  /\ popup_window (state_after (update_system_info env_tool_45_62)
                     (new_monitor fresh_root)) = None.
Proof.
  split; [reflexivity|].
  exact (proj1 (proj2 (hidden_popup_is_left_alone env_tool_45_62
                         (new_monitor fresh_root) (or_introl eq_refl)))).
Defined.

Lemma first_key_press_shows_popup_witness :
  failures_are_Exceptions env_tool_45_62
  /\ is_popup_visible
       (snd (main env_tool_45_62
               [(env_tool_45_62, HotkeyPressed); (env_tool_45_62, TimerDue)]))
     = true.
Proof.
  assert (He : failures_are_Exceptions env_tool_45_62) by (repeat split).
  split; [exact He|].
  exact (proj1 (proj2 (first_key_press_shows_popup env_tool_45_62 env_tool_45_62
                         env_tool_45_62 (new_monitor fresh_root) eq_refl)
                      tt eq_refl He)).
Defined.

Lemma other_channels_are_ignored_witness :
  Forall (fun sensor => gpu_named sensor = false) cpu_channels
  /\ sensor_loop cpu_channels = ("N/A", "N/A").
Proof.
  assert (Hall : Forall (fun sensor => gpu_named sensor = false) cpu_channels)
    by (repeat constructor).
  split; [exact Hall|].
  exact (proj2 (other_channels_are_ignored cpu_channels) Hall).
Defined.
